(** * Video-Upscaling-GenAI: the frame-resize pipeline

    A shallow embedding of [video_upscaling.py] (the configured pipeline:
    [load_config], [configure_logging], [check_memory_limit],
    [get_interpolation_method], [upscale_video], [extract_and_add_audio],
    [cleanup_temp_file], [main]) and of [main.py] (the scale-factor variant
    [upscale_video_with_audio]).

    Python code that touches the outside world (OpenCV, moviepy, psutil, the
    file system, the logger) is written in an exception-and-state monad over
    an explicit [world]; what the third-party calls do is fixed once, in the
    section "External calls". *)

From Stdlib Require Import ZArith QArith Lia Bool Ascii String Floats.
From stdpp Require Import base option list strings gmap.

Local Open Scope Z_scope.

(** ** Python numbers *)

(** Python's [float] is IEEE-754 binary64.  Every float this program handles
    is a finite, non-negative magnitude (a frame rate, a frame dimension, a
    tenth of the physical memory, a scale factor), so a float is kept as an
    integer significand and a binary exponent, denoting [mant * 2^expo].
    The exponent range (overflow, subnormals) is not modelled. *)
Module PyFloat.

Record float := mk { mant : Z; expo : Z }.

(** Number of significand bits of binary64. *)
Definition prec : Z := 53.

(** Round [m * 2^e] to the nearest value with at most [prec] significand
    bits, ties to even: what every binary64 operation does to its exact
    result. *)
Definition round (m e : Z) : float :=
  let s := Z.log2 m + 1 - prec in
  if s <=? 0 then mk m e
  else
    let q := Z.shiftr m s in
    let r := m mod 2 ^ s in
    let half := 2 ^ (s - 1) in
    if (half <? r) || ((r =? half) && Z.odd q)
    then mk (q + 1) (e + s)
    else mk q (e + s).

(** [float(n)] for a Python int [n >= 0]. *)
Definition of_int (n : Z) : float := round n 0.

(** [x * y] on floats. *)
Definition mul (x y : float) : float :=
  round (mant x * mant y) (expo x + expo y).

(** [int(x)]: truncation toward zero. *)
Definition to_int (x : float) : Z :=
  if 0 <=? expo x then mant x * 2 ^ expo x
  else Z.shiftr (mant x) (- expo x).

(** [n < x] for a Python int [n] and a float [x].  Python compares the two
    exactly, without converting the int to a float. *)
Definition int_ltb (n : Z) (x : float) : bool :=
  if 0 <=? expo x then n <? mant x * 2 ^ expo x
  else n * 2 ^ (- expo x) <? mant x.


(** The literal [0.1]: the binary64 number nearest to one tenth,
    3602879701896397 / 2^55. *)
Definition tenth : float := mk 3602879701896397 (-55).

Definition zero : float := mk 0 0.

End PyFloat.

(** A Python number as this program meets it: an [int] or a [float]. *)
Inductive pynum :=
| PyInt (n : Z)
| PyFloat (x : PyFloat.float).

(** [n * k] for a Python int [n]. *)
Definition py_int_mul (n : Z) (k : pynum) : pynum :=
  match k with
  | PyInt m => PyInt (n * m)
  | PyFloat x => PyFloat (PyFloat.mul (PyFloat.of_int n) x)
  end.

(** [int(k)]. *)
Definition py_int (k : pynum) : Z :=
  match k with
  | PyInt m => m
  | PyFloat x => PyFloat.to_int x
  end.


(** *** The model against the machine

    Rocq's primitive floats are the machine's binary64 numbers, so the
    operations of [PyFloat] can be run side by side with the real ones. *)

(** The value of a finite non-negative binary64 number of the machine. *)
Definition of_binary64 (x : PrimFloat.float) : option PyFloat.float :=
  match Prim2SF x with
  | S754_zero _ => Some PyFloat.zero
  | S754_finite false m e => Some (PyFloat.mk (Z.pos m) e)
  | _ => None
  end.

(** Two floats denote the same number. *)
Definition same_value (x y : PyFloat.float) : bool :=
  let e := Z.min (PyFloat.expo x) (PyFloat.expo y) in
  PyFloat.mant x * 2 ^ (PyFloat.expo x - e) =?
  PyFloat.mant y * 2 ^ (PyFloat.expo y - e).

(** The machine's [x * float(n)] against [PyFloat.mul]. *)
Definition mul_agrees (x : PrimFloat.float) (n : Z) : bool :=
  match of_binary64 x,
        of_binary64 (PrimFloat.mul x (PrimFloat.of_uint63 (Uint63.of_Z n)))
  with
  | Some x', Some y => same_value (PyFloat.mul x' (PyFloat.of_int n)) y
  | _, _ => false
  end.

(** The literals [0.1] and [1.5] on the machine. *)
Definition binary64_tenth : PrimFloat.float := 0x1.999999999999ap-4%float.
Definition binary64_one_and_a_half : PrimFloat.float := 0x1.8p+0%float.

(** Byte counts and frame dimensions to try, on both sides of 2^53. *)
Definition trial_ints : list Z :=
  [0; 1; 2; 3; 7; 10; 11; 99; 720; 1281; 4096; 123456789; 8589934592;
   17179869184; 17179869185; 68719476735; 1099511627776; 281474976710655;
   9007199254740991; 9007199254740993; 36028797018963967;
   1152921504606846975; 4611686018427387903].

(** ** Exceptions

    The exception classes the two scripts raise or meet.  All of them except
    [SystemExit] derive from Python's [Exception]. *)
Inductive exn :=
| MemoryError (msg : string)
| ValueError (msg : string)
| ZeroDivisionError
| Exception (msg : string)      (* a bare [Exception] raised by the script *)
| OSError (msg : string)        (* raised by [os] and by moviepy *)
| cv2_error (msg : string)      (* raised by OpenCV *)
| SystemExit (code : Z).

(** [isinstance(e, MemoryError)]. *)
Definition is_MemoryError (e : exn) : bool :=
  match e with MemoryError _ => true | _ => false end.

(** [isinstance(e, Exception)]. *)
Definition is_Exception (e : exn) : bool :=
  match e with SystemExit _ => false | _ => true end.

(** [str(e)]. *)
Definition exn_str (e : exn) : string :=
  match e with
  | MemoryError m | ValueError m | Exception m | OSError m | cv2_error m => m
  | ZeroDivisionError => "integer division or modulo by zero"
  | SystemExit _ => ""
  end.

(** ** Data model *)

(** A raster image: either decoded from a source, or the result of a
    [cv2.resize] call, recorded with the call's arguments. *)
Inductive frame :=
| Raw (width height : Z) (pixels : list Z)
| Resized (src : frame) (dsize : Z * Z) (interpolation : Z).


(** A video container on disk. *)
Record video := Video {
  v_width : Z;
  v_height : Z;
  v_fps : PyFloat.float;
  v_frame_count : Z;            (* the count stored in the container *)
  v_frames : list frame;        (* the frames that decode *)
  v_audio : option (list Z)     (* the audio track, when there is one *)
}.

Inductive file :=
| VideoFile (v : video)
| OtherFile.                    (* present, but not decodable as a video *)

(** The parsed [config.json]. *)
Record config := Config {
  log_dir : string;
  interpolation_method : string;
  output_folder : string;
  input_video : string;
  target_resolution : Z * Z;
  output_video : string
}.

Inductive json_file :=
| Malformed
| Parsed (c : config).

(** What [psutil.virtual_memory()] reports, in bytes. *)
Record svmem := Svmem { total : N; available : N }.

(** Log records: the level, and which message with which arguments. *)
Inductive level := INFO | WARNING | ERROR.

Inductive message :=
| LoggingInitialized
| LowMemoryDetected
| OriginalVideo (width height : Z) (fps : PyFloat.float) (total_frames : Z)
| UpscalingTo (target : Z * Z)
| Processed (frame_counter total_frames : Z)
| UpscalingCompleted
| MemoryErrorEncountered (e : string)
| ErrorProcessingVideo (e : string)
| AudioAdded
| ErrorAddingAudio (e : string)
| TempFileRemoved (path : string)
| TempFileMissing (path : string)
| ErrorDuringCleanup (e : string)
| MainMemoryError (e : string)
| MainFailed (e : string).

(** The part of the machine the scripts can see or change. *)
Record world := World {
  w_json : gmap string json_file;       (* JSON files, by path *)
  w_files : gmap string file;           (* media files, by path *)
  w_unwritable : string -> bool;        (* paths where no file can be created *)
  w_remove_fault : string -> option string;  (* paths [os.remove] fails on *)
  w_logging_fault : option string;      (* the log file cannot be made *)
  w_encode_fault : option string;       (* moviepy fails to encode the output *)
  w_meminfo : nat -> svmem;             (* the successive memory reports *)
  w_memreads : nat;                     (* how many of them were taken *)
  w_log : list (level * message);
  w_stdout : list string
}.

Definition set_files (fs : gmap string file) (w : world) : world :=
  World (w_json w) fs (w_unwritable w) (w_remove_fault w) (w_logging_fault w)
        (w_encode_fault w) (w_meminfo w) (w_memreads w) (w_log w) (w_stdout w).

Definition set_memreads (n : nat) (w : world) : world :=
  World (w_json w) (w_files w) (w_unwritable w) (w_remove_fault w)
        (w_logging_fault w) (w_encode_fault w) (w_meminfo w) n (w_log w)
        (w_stdout w).

Definition set_log (l : list (level * message)) (w : world) : world :=
  World (w_json w) (w_files w) (w_unwritable w) (w_remove_fault w)
        (w_logging_fault w) (w_encode_fault w) (w_meminfo w) (w_memreads w) l
        (w_stdout w).

Definition set_stdout (l : list string) (w : world) : world :=
  World (w_json w) (w_files w) (w_unwritable w) (w_remove_fault w)
        (w_logging_fault w) (w_encode_fault w) (w_meminfo w) (w_memreads w)
        (w_log w) l.

(** ** The monad of script code: exceptions over a threaded world *)

Definition M (A : Type) : Type := world -> (exn + A) * world.

Definition ret {A} (a : A) : M A := fun w => (inr a, w).

Definition raise {A} (e : exn) : M A := fun w => (inl e, w).

Definition bind {A B} (m : M A) (k : A -> M B) : M B :=
  fun w =>
    match m w with
    | (inr a, w') => k a w'
    | (inl e, w') => (inl e, w')
    end.

Declare Scope script_scope.
Delimit Scope script_scope with script.
Notation "x <- m ;; k" := (bind m (fun x => k))
  (at level 20, m at level 99, k at level 200, right associativity)
  : script_scope.
Notation "m ;; k" := (bind m (fun _ => k))
  (at level 100, k at level 200, right associativity) : script_scope.
Local Open Scope script_scope.

(** [try: body  except ...: ...].  The handler picks the first matching
    [except] clause; [None] lets the exception propagate. *)
Definition try_except {A} (body : M A) (handler : exn -> option (M A)) : M A :=
  fun w =>
    match body w with
    | (inl e, w') =>
        match handler e with
        | Some h => h w'
        | None => (inl e, w')
        end
    | r => r
    end.

(** ** External calls

    What the third-party and standard-library calls of the scripts do, as
    far as the scripts depend on it. *)

(** [logging.info], [logging.warning], [logging.error] and
    [logging.exception] (which logs at level ERROR). *)
Definition logging_log (l : level) (m : message) : M unit :=
  fun w => (inr tt, set_log (w_log w ++ [(l, m)]) w).

Definition logging_info := logging_log INFO.
Definition logging_warning := logging_log WARNING.
Definition logging_error := logging_log ERROR.
Definition logging_exception := logging_log ERROR.

(** [print]. *)
Definition print (s : string) : M unit :=
  fun w => (inr tt, set_stdout (w_stdout w ++ [s]) w).

(** [sys.exit(code)]. *)
Definition sys_exit {A} (code : Z) : M A := raise (SystemExit code).

(** [gc.collect()]: nothing a script can observe. *)
Definition gc_collect : M unit := ret tt.

(** [psutil.virtual_memory()]: the next memory report. *)
Definition psutil_virtual_memory : M svmem :=
  fun w =>
    (inr (w_meminfo w (w_memreads w)), set_memreads (S (w_memreads w)) w).

(** [os.path.join(a, b)] on POSIX paths. *)
Fixpoint endswith_sep (s : string) : bool :=
  match s with
  | EmptyString => false
  | String c EmptyString => Ascii.eqb c "/"%char
  | String _ s' => endswith_sep s'
  end.

Definition startswith_sep (s : string) : bool :=
  match s with
  | String c _ => Ascii.eqb c "/"%char
  | EmptyString => false
  end.

Definition os_path_join (a b : string) : string :=
  if startswith_sep b then b
  else if String.eqb a "" || endswith_sep a then a +:+ b
  else a +:+ "/" +:+ b.

(** [os.path.exists(path)]. *)
Definition os_path_exists (path : string) : M bool :=
  fun w => (inr (bool_decide (is_Some (w_files w !! path))), w).

(** [os.remove(path)]: raises [OSError] when there is no such file or when
    the system refuses the removal. *)
Definition os_remove (path : string) : M unit :=
  fun w =>
    match w_files w !! path with
    | None => (inl (OSError "No such file or directory"), w)
    | Some _ =>
        match w_remove_fault w path with
        | Some m => (inl (OSError m), w)
        | None => (inr tt, set_files (delete path (w_files w)) w)
        end
    end.

(** [cv2.VideoCapture(path)].  The capture is opened exactly when [path]
    holds a decodable video; it then serves that video's properties and
    frames. *)
Definition capture := option video.

Definition cv2_VideoCapture (path : string) : M capture :=
  fun w =>
    (inr match w_files w !! path with
         | Some (VideoFile v) => Some v
         | _ => None
         end, w).

Definition isOpened (cap : capture) : bool :=
  match cap with Some _ => true | None => false end.

(** [cap.get(prop)]: a float; 0.0 on a capture that is not opened. *)
Inductive cap_prop :=
| CAP_PROP_FRAME_WIDTH
| CAP_PROP_FRAME_HEIGHT
| CAP_PROP_FPS
| CAP_PROP_FRAME_COUNT.

Definition cap_get (cap : capture) (prop : cap_prop) : PyFloat.float :=
  match cap with
  | None => PyFloat.zero
  | Some v =>
      match prop with
      | CAP_PROP_FRAME_WIDTH => PyFloat.of_int (v_width v)
      | CAP_PROP_FRAME_HEIGHT => PyFloat.of_int (v_height v)
      | CAP_PROP_FPS => v_fps v
      | CAP_PROP_FRAME_COUNT => PyFloat.of_int (v_frame_count v)
      end
  end.

(** The frames the successive [cap.read()] calls return with [ret] true;
    the call after the last one returns [ret] false. *)
Definition cap_frames (cap : capture) : list frame :=
  match cap with
  | Some v => v_frames v
  | None => []
  end.

(** [cv2.VideoWriter(path, fourcc, fps, size)].  The constructor never
    raises.  The writer is opened, and the file created empty, when the
    frame size is positive and the path can be written; otherwise the
    writer stays closed. *)
Record writer := Writer { vw_path : string; vw_opened : bool }.

Definition cv2_VideoWriter (path : string) (fps : PyFloat.float)
    (size : Z * Z) : M writer :=
  fun w =>
    if (0 <? size.1) && (0 <? size.2) && negb (w_unwritable w path)
    then (inr (Writer path true),
          set_files (<[path := VideoFile (Video size.1 size.2 fps 0 [] None)]>
                       (w_files w)) w)
    else (inr (Writer path false), w).

(** [video_writer.write(frame)]: appends the frame; silently does nothing
    on a writer that is not opened. *)
Definition writer_write (vw : writer) (f : frame) : M unit :=
  fun w =>
    if vw_opened vw then
      match w_files w !! vw_path vw with
      | Some (VideoFile v) =>
          (inr tt,
           set_files (<[vw_path vw :=
                          VideoFile (Video (v_width v) (v_height v) (v_fps v)
                                       (v_frame_count v + 1)
                                       (v_frames v ++ [f]) (v_audio v))]>
                        (w_files w)) w)
      | _ => (inr tt, w)
      end
    else (inr tt, w).

(** [cap.release()] and [video_writer.release()]. *)
Definition release : M unit := ret tt.

(** [cv2.resize(frame, dsize, interpolation=...)]: raises when [dsize] is
    empty. *)
Definition cv2_resize (f : frame) (dsize : Z * Z) (interpolation : Z)
    : M frame :=
  if (0 <? dsize.1) && (0 <? dsize.2)
  then ret (Resized f dsize interpolation)
  else raise (cv2_error "(-215:Assertion failed) !dsize.empty() in 'resize'").

(** OpenCV's interpolation flags. *)
Definition cv2_INTER_NEAREST : Z := 0.
Definition cv2_INTER_LINEAR : Z := 1.
Definition cv2_INTER_CUBIC : Z := 2.
Definition cv2_INTER_LANCZOS4 : Z := 4.

(** moviepy's [VideoFileClip(path)]: raises [OSError] when [path] is not a
    decodable video. *)
Definition VideoFileClip (path : string) : M video :=
  fun w =>
    match w_files w !! path with
    | Some (VideoFile v) => (inr v, w)
    | _ => (inl (OSError ("MoviePy error: the file " +:+ path +:+
                          " could not be found!")), w)
    end.

(** [clip.set_audio(audio)]. *)
Definition set_audio (clip : video) (audio : option (list Z)) : video :=
  Video (v_width clip) (v_height clip) (v_fps clip) (v_frame_count clip)
        (v_frames clip) audio.

(** [clip.write_videofile(path, codec='libx264')]. *)
Definition write_videofile (clip : video) (path : string) : M unit :=
  fun w =>
    match w_encode_fault w with
    | Some m => (inl (OSError m), w)
    | None =>
        if w_unwritable w path
        then (inl (OSError "Permission denied"), w)
        else (inr tt, set_files (<[path := VideoFile clip]> (w_files w)) w)
    end.

(** [open(config_file)] followed by [json.load]. *)
Inductive json_error := FileNotFoundError | JSONDecodeError.

Definition open_json (config_file : string) : world -> json_error + config :=
  fun w =>
    match w_json w !! config_file with
    | None => inl FileNotFoundError
    | Some Malformed => inl JSONDecodeError
    | Some (Parsed c) => inr c
    end.

(** The directory and handler set-up of [configure_logging]
    ([os.makedirs], [logging.FileHandler]): may raise [OSError]. *)
Definition logging_basicConfig (log_dir : string) : M unit :=
  fun w =>
    match w_logging_fault w with
    | Some m => (inl (OSError m), w)
    | None => (inr tt, w)
    end.

(** ** video_upscaling.py *)

(** [load_config] *)
Definition load_config (config_file : string) : M config :=
  fun w =>
    match open_json config_file w with
    | inr config => (inr config, w)
    | inl FileNotFoundError =>
        (inl (Exception ("Configuration file " +:+ config_file +:+
                         " not found.")), w)
    | inl JSONDecodeError =>
        (inl (Exception "Error parsing the JSON configuration file."), w)
    end.

(** [configure_logging] *)
Definition configure_logging (log_dir : string) : M unit :=
  logging_basicConfig log_dir ;;
  logging_info LoggingInitialized.

(** The test of [check_memory_limit]:
    [mem.available < (0.1 * mem.total)], an int against a float product. *)
Definition memory_is_low (mem : svmem) : bool :=
  PyFloat.int_ltb (Z.of_N (available mem))
    (PyFloat.mul PyFloat.tenth (PyFloat.of_int (Z.of_N (total mem)))).

(** [check_memory_limit] *)
Definition check_memory_limit : M unit :=
  mem <- psutil_virtual_memory ;;
  if memory_is_low mem then
    logging_warning LowMemoryDetected ;;
    raise (MemoryError "System is running out of memory. Aborting process.")
  else ret tt.

(** [get_interpolation_method] *)
Definition get_interpolation_method (method_name : string) : exn + Z :=
  if String.eqb method_name "INTER_LINEAR" then inr cv2_INTER_LINEAR
  else if String.eqb method_name "INTER_NEAREST" then inr cv2_INTER_NEAREST
  else if String.eqb method_name "INTER_CUBIC" then inr cv2_INTER_CUBIC
  else if String.eqb method_name "INTER_LANCZOS4" then inr cv2_INTER_LANCZOS4
  else inl (ValueError ("Invalid interpolation method: " +:+ method_name)).

(** A pure function that may raise, run as script code. *)
Definition lift {A} (r : exn + A) : M A := fun w => (r, w).

(** [a % b] on ints. *)
Definition py_mod (a b : Z) : M Z :=
  if b =? 0 then raise ZeroDivisionError else ret (a mod b).

(** The [while True] loop of [upscale_video], by recursion on the frames
    the capture still has to deliver; [frame_counter] is the counter's
    value on entry. *)
Fixpoint upscale_frames (frames : list frame) (video_writer : writer)
    (target_resolution : Z * Z) (interpolation_method : Z)
    (chunk_size total_frames frame_counter : Z) : M unit :=
  match frames with
  | [] => ret tt
  | frame :: frames =>
      upscaled_frame <-
        cv2_resize frame target_resolution interpolation_method ;;
      writer_write video_writer upscaled_frame ;;
      let frame_counter := frame_counter + 1 in
      r <- py_mod frame_counter chunk_size ;;
      (if r =? 0 then
         logging_info (Processed frame_counter total_frames) ;;
         check_memory_limit ;;
         gc_collect
       else ret tt) ;;
      upscale_frames frames video_writer target_resolution
        interpolation_method chunk_size total_frames frame_counter
  end.

(** The [try] block of [upscale_video]. *)
Definition upscale_video_try (input_path temp_output_path : string)
    (target_resolution : Z * Z) (interpolation_method : Z) (chunk_size : Z)
    : M unit :=
  video_capture <- cv2_VideoCapture input_path ;;
  (if negb (isOpened video_capture)
   then raise (Exception ("Unable to open video file: " +:+ input_path))
   else ret tt) ;;
  let width := PyFloat.to_int (cap_get video_capture CAP_PROP_FRAME_WIDTH) in
  let height := PyFloat.to_int (cap_get video_capture CAP_PROP_FRAME_HEIGHT) in
  let fps := cap_get video_capture CAP_PROP_FPS in
  let total_frames :=
    PyFloat.to_int (cap_get video_capture CAP_PROP_FRAME_COUNT) in
  logging_info (OriginalVideo width height fps total_frames) ;;
  video_writer <- cv2_VideoWriter temp_output_path fps target_resolution ;;
  logging_info (UpscalingTo target_resolution) ;;
  upscale_frames (cap_frames video_capture) video_writer target_resolution
    interpolation_method chunk_size total_frames 0 ;;
  release ;;
  release ;;
  logging_info UpscalingCompleted.

(** [upscale_video]: both handlers log and re-raise. *)
Definition upscale_video (input_path temp_output_path : string)
    (target_resolution : Z * Z) (interpolation_method : Z) (chunk_size : Z)
    : M unit :=
  try_except
    (upscale_video_try input_path temp_output_path target_resolution
       interpolation_method chunk_size)
    (fun e =>
       if is_MemoryError e then
         Some (logging_exception (MemoryErrorEncountered (exn_str e)) ;;
               raise e)
       else if is_Exception e then
         Some (logging_exception (ErrorProcessingVideo (exn_str e)) ;;
               raise e)
       else None).

(** [extract_and_add_audio] *)
Definition extract_and_add_audio
    (input_path temp_upscaled_video final_output_video : string) : M unit :=
  try_except
    (original_clip <- VideoFileClip input_path ;;
     let audio_clip := v_audio original_clip in
     upscaled_clip <- VideoFileClip temp_upscaled_video ;;
     let final_clip := set_audio upscaled_clip audio_clip in
     write_videofile final_clip final_output_video ;;
     logging_info AudioAdded)
    (fun e =>
       if is_Exception e then
         Some (logging_exception (ErrorAddingAudio (exn_str e)) ;; raise e)
       else None).

(** [cleanup_temp_file] *)
Definition cleanup_temp_file (temp_file_path : string) : M unit :=
  try_except
    (b <- os_path_exists temp_file_path ;;
     if b then
       os_remove temp_file_path ;;
       logging_info (TempFileRemoved temp_file_path)
     else logging_warning (TempFileMissing temp_file_path))
    (fun e =>
       if is_Exception e then
         Some (logging_exception (ErrorDuringCleanup (exn_str e)))
       else None).

(** The [try] block of [main]. *)
Definition main_try : M unit :=
  config <- load_config "config.json" ;;
  configure_logging (log_dir config) ;;
  interpolation_method <-
    lift (get_interpolation_method (interpolation_method config)) ;;
  let temp_output_path :=
    os_path_join (output_folder config) "temp_upscaled_video.mp4" in
  upscale_video (input_video config) temp_output_path
    (target_resolution config) interpolation_method 100 ;;
  extract_and_add_audio (input_video config) temp_output_path
    (output_video config) ;;
  cleanup_temp_file temp_output_path.

(** [main] *)
Definition main : M unit :=
  try_except main_try
    (fun e =>
       if is_MemoryError e then
         Some (logging_error (MainMemoryError (exn_str e)) ;; sys_exit 1)
       else if is_Exception e then
         Some (logging_exception (MainFailed (exn_str e)) ;; sys_exit 1)
       else None).

(** Running the script: the exit status of the process.  Falling off the
    end exits with 0, [sys.exit(code)] with [code], and an exception that
    reaches the top level with 1. *)
Definition exit_status (r : exn + unit) : Z :=
  match r with
  | inr _ => 0
  | inl (SystemExit code) => code
  | inl _ => 1
  end.

Definition run_script (w : world) : Z * world :=
  let (r, w') := main w in (exit_status r, w').

(** ** main.py *)

(** The frame loop of [upscale_video_with_audio]. *)
Fixpoint upscale_frames_cubic (frames : list frame) (out : writer)
    (size : Z * Z) : M unit :=
  match frames with
  | [] => ret tt
  | frame :: frames =>
      upscaled_frame <- cv2_resize frame size cv2_INTER_CUBIC ;;
      writer_write out upscaled_frame ;;
      upscale_frames_cubic frames out size
  end.

(** The frame size the script hands to [cv2.VideoWriter] and to
    [cv2.resize]:
    [(int(width * scale_factor), int(height * scale_factor))]. *)
Definition target_size (width height : Z) (scale_factor : pynum) : Z * Z :=
  (py_int (py_int_mul width scale_factor),
   py_int (py_int_mul height scale_factor)).

(** [upscale_video_with_audio] *)
Definition upscale_video_with_audio (input_path output_path : string)
    (scale_factor : pynum) : M unit :=
  cap <- cv2_VideoCapture input_path ;;
  let width := PyFloat.to_int (cap_get cap CAP_PROP_FRAME_WIDTH) in
  let height := PyFloat.to_int (cap_get cap CAP_PROP_FRAME_HEIGHT) in
  let fps := PyFloat.to_int (cap_get cap CAP_PROP_FPS) in
  out <- cv2_VideoWriter "temp_video.mp4" (PyFloat.of_int fps)
           (target_size width height scale_factor) ;;
  upscale_frames_cubic (cap_frames cap) out
    (target_size width height scale_factor) ;;
  release ;;
  release ;;
  video_clip <- VideoFileClip input_path ;;
  let audio_clip := v_audio video_clip in
  upscaled_video <- VideoFileClip "temp_video.mp4" ;;
  let final_clip := set_audio upscaled_video audio_clip in
  write_videofile final_clip output_path ;;
  print ("Upscaled video with audio saved at " +:+ output_path).

(** ** Specification vocabulary *)

(** A frame size OpenCV accepts. *)
Definition valid_size (size : Z * Z) : Prop := 0 < size.1 /\ 0 < size.2.

(** The frames a resample run produces from the source frames. *)
Definition resized (size : Z * Z) (interpolation : Z) (frames : list frame)
    : list frame :=
  map (fun f => Resized f size interpolation) frames.

(** A video file after more frames were written to it. *)
Definition append_frames (v : video) (frames : list frame) : video :=
  Video (v_width v) (v_height v) (v_fps v)
        (v_frame_count v + Z.of_nat (length frames))
        (v_frames v ++ frames) (v_audio v).

(** The files after [frames] went through the writer [vw] into a file
    that held [v]: a writer that is not opened leaves them alone. *)
Definition write_frames (vw : writer) (v : video) (frames : list frame)
    (files : gmap string file) : gmap string file :=
  if vw_opened vw
  then <[vw_path vw := VideoFile (append_frames v frames)]> files
  else files.

(** The writer [cv2.VideoWriter] returns for a valid frame size, and the
    empty file it creates. *)
Definition created_writer (w : world) (path : string) : writer :=
  Writer path (negb (w_unwritable w path)).

Definition empty_video (size : Z * Z) (fps : PyFloat.float) : video :=
  Video size.1 size.2 fps 0 [] None.

(** The parts of the world no script changes. *)
Definition same_environment (w w' : world) : Prop :=
  w_json w' = w_json w /\ w_unwritable w' = w_unwritable w /\
  w_remove_fault w' = w_remove_fault w /\
  w_logging_fault w' = w_logging_fault w /\
  w_encode_fault w' = w_encode_fault w /\ w_meminfo w' = w_meminfo w.

(** Every stage of [main] before cleanup returns normally: the
    configuration loads, logging is set up, the interpolation name is
    known, and the resample and audio stages complete. *)
Definition stages_succeed (w : world) : Prop :=
  exists c im,
    w_json w !! "config.json" = Some (Parsed c) /\
    w_logging_fault w = None /\
    get_interpolation_method (interpolation_method c) = inr im /\
    let temp := os_path_join (output_folder c) "temp_upscaled_video.mp4" in
    let resample :=
      upscale_video (input_video c) temp (target_resolution c) im 100
        (set_log (w_log w ++ [(INFO, LoggingInitialized)]) w) in
    resample.1 = inr tt /\
    (extract_and_add_audio (input_video c) temp (output_video c)
       resample.2).1 = inr tt.

(** The four interpolation names of the configuration and their OpenCV
    flags. *)
Definition interpolation_table : list (string * Z) :=
  [("INTER_LINEAR", cv2_INTER_LINEAR); ("INTER_NEAREST", cv2_INTER_NEAREST);
   ("INTER_CUBIC", cv2_INTER_CUBIC); ("INTER_LANCZOS4", cv2_INTER_LANCZOS4)].

(** The frame counts at which [upscale_video] reports progress and checks
    the memory: the multiples of [chunk_size] among [1 .. frames], in
    increasing order. *)
Definition checkpoints (chunk_size : Z) (frames : nat) : list Z :=
  List.filter (fun m => m mod chunk_size =? 0) (map Z.of_nat (seq 1 frames)).

(** The progress records of a run over [frames] frames. *)
Definition progress_records (chunk_size total_frames : Z) (frames : nat)
    : list (level * message) :=
  map (fun m => (INFO, Processed m total_frames))
    (checkpoints chunk_size frames).

(** What the file of a writer made for [size] and [fps] holds after
    [frames] were resized and written to it. *)
Definition written_video (size : Z * Z) (fps : PyFloat.float)
    (interpolation : Z) (frames : list frame) : video :=
  Video size.1 size.2 fps (Z.of_nat (length frames))
    (resized size interpolation frames) None.

(** ** Sample runs

    Small concrete worlds on which the scripts are evaluated. *)
Module Sample.

Definition frames (n : nat) : list frame :=
  map (fun i => Raw 4 2 [Z.of_nat i]) (seq 0 n).

(** A clip of [n] frames, 4x2 pixels, at 12.5 frames per second. *)
Definition clip (n : nat) : video :=
  Video 4 2 (PyFloat.mk 25 (-1)) (Z.of_nat n) (frames n) (Some [7; 7; 7]).

Definition cfg : config :=
  Config "logs" "INTER_CUBIC" "out" "in.mp4" (8, 4) "final.mp4".

Definition temp : string := "out/temp_upscaled_video.mp4".

(** 16 GiB of memory, of which 8 GiB or 1 GiB are available. *)
Definition plenty : svmem := Svmem 17179869184 8589934592.
Definition scarce : svmem := Svmem 17179869184 1073741824.

(** A machine holding [config.json] and an [n]-frame input, where the
    memory reports are scarce from the [low]-th one on and [os.remove]
    fails on the paths [locked] says. *)
Definition machine (n low : nat) (locked : string -> option string) : world :=
  World {["config.json" := Parsed cfg]} {["in.mp4" := VideoFile (clip n)]}
    (fun _ => false) locked None None
    (fun i => if (i <? low)%nat then plenty else scarce) 0 [] [].

Definition unlocked : string -> option string := fun _ => None.

Definition lock_temp : string -> option string :=
  fun p => if String.eqb p temp then Some "Permission denied" else None.

(** Runs of 250 frames where memory stays plentiful for the two periodic
    checks, and where the second check finds it scarce; of 101 frames with
    memory scarce from the start; and of 99 frames. *)
Definition full_run : world := machine 250 2 unlocked.
Definition aborted_run : world := machine 250 1 unlocked.
Definition short_run : world := machine 99 0 unlocked.


(** The same machine without the input file. *)
Definition no_input : world :=
  World {["config.json" := Parsed cfg]} ∅ (fun _ => false) unlocked None None
    (fun _ => plenty) 0 [] [].

(** A machine that only holds a stale intermediate file. *)
Definition stale (locked : string -> option string) : world :=
  World ∅ {[temp := OtherFile]} (fun _ => false) locked None None
    (fun _ => plenty) 0 [] [].


(** 10 GiB of memory with exactly a tenth of it available. *)
Definition brink : svmem := Svmem 10737418240 1073741824.

(** The 3-frame machine when every memory report is [brink]. *)
Definition on_the_brink : world :=
  World {["config.json" := Parsed cfg]} {["in.mp4" := VideoFile (clip 3)]}
    (fun _ => false) unlocked None None (fun _ => brink) 0 [] [].






(** The 3-frame machine after its resample stage. *)
Definition resampled : world :=
  (upscale_video "in.mp4" temp (8, 4) cv2_INTER_CUBIC 100
     (machine 3 0 unlocked)).2.

End Sample.

(** * Proofs *)

(** ** Floats *)
Section FloatFacts.
Import PyFloat.

Lemma of_int_exact n : 0 <= n < 2 ^ 53 -> of_int n = mk n 0.
Proof.
  intros [H0 H1]. unfold of_int, round, prec.
  destruct (Z.eq_dec n 0) as [->|Hn]; [reflexivity|].
  assert (Z.log2 n < 53) by (apply Z.log2_lt_pow2; lia).
  destruct (Z.leb_spec (Z.log2 n + 1 - 53) 0); [reflexivity | lia].
Qed.

Lemma round_cases m e :
  0 < m ->
  (Z.log2 m + 1 - 53 <= 0 /\ round m e = mk m e) \/
  (exists s q r,
      0 < s /\ s = Z.log2 m + 1 - 53 /\ m = q * 2 ^ s + r /\ 0 <= r < 2 ^ s /\
      2 ^ 52 * 2 ^ s <= m < 2 ^ 53 * 2 ^ s /\
      round m e =
        mk (if (2 ^ (s - 1) <? r) || ((r =? 2 ^ (s - 1)) && Z.odd q)
            then q + 1 else q) (e + s)).
Proof.
  intros Hm. unfold round, prec.
  destruct (Z.leb_spec (Z.log2 m + 1 - 53) 0) as [Hs|Hs]; [left; auto|right].
  set (s := Z.log2 m + 1 - 53) in *.
  exists s, (m / 2 ^ s), (m mod 2 ^ s).
  assert (Hp : 0 < 2 ^ s) by (apply Z.pow_pos_nonneg; lia).
  split; [lia|]. split; [reflexivity|].
  split. { rewrite Z.mul_comm. apply Z.div_mod. lia. }
  split. { apply Z.mod_pos_bound. lia. }
  split.
  { destruct (Z.log2_spec m Hm) as [Hl Hu].
    replace (2 ^ 52 * 2 ^ s) with (2 ^ Z.log2 m).
    2:{ rewrite <- Z.pow_add_r by lia. f_equal. lia. }
    replace (2 ^ 53 * 2 ^ s) with (2 ^ Z.succ (Z.log2 m)).
    2:{ rewrite <- Z.pow_add_r by lia. f_equal. lia. }
    lia. }
  rewrite Z.shiftr_div_pow2 by lia.
  destruct ((2 ^ (s - 1) <? m mod 2 ^ s) || ((m mod 2 ^ s =? 2 ^ (s - 1)) && Z.odd (m / 2 ^ s))); reflexivity.
Qed.

Lemma tenth_mul_lt a t :
  0 <= a -> 0 <= t < 2 ^ 53 ->
  int_ltb a (mul tenth (of_int t)) = (10 * a <? t).
Proof.
  intros Ha Ht. rewrite of_int_exact by assumption.
  unfold mul, tenth. cbn [mant expo].
  set (M := 3602879701896397).
  destruct (Z.eq_dec t 0) as [->|Hne].
  { unfold int_ltb, round, prec. simpl.
    destruct (Z.ltb_spec (a * 36028797018963968) 0); destruct (Z.ltb_spec (10 * a) 0); try reflexivity; lia. }
  assert (Hm : 0 < M * t) by (unfold M; lia).
  destruct (round_cases (M * t) (-55 + 0) Hm) as [[Hs ->]|(s & q & r & Hs & Hsd & Hqr & Hr & Hb & ->)].
  - (* exact product: t is 1 or 2 *)
    assert (Hl : Z.log2 (M * t) < 53) by lia.
    apply Z.log2_lt_pow2 in Hl; [|assumption].
    unfold int_ltb. cbn [mant expo]. simpl (0 <=? _). cbv iota.
    change (2 ^ (- (-55 + 0))) with 36028797018963968.
    unfold M in *.
    destruct (Z.ltb_spec (a * 36028797018963968) (3602879701896397 * t));
      destruct (Z.ltb_spec (10 * a) t); try reflexivity; lia.
  - assert (Hs52 : s <= 52).
    { assert (Z.log2 (M * t) < 105); [|lia].
      apply Z.log2_lt_pow2; [assumption|]. unfold M. lia. }
    set (P := 2 ^ s) in *. set (C := 2 ^ (55 - s)).
    assert (HPC : P * C = 36028797018963968).
    { unfold P, C. rewrite <- Z.pow_add_r by lia. replace (s + (55 - s)) with 55 by lia. reflexivity. }
    assert (Hhalf : 2 * 2 ^ (s - 1) = P).
    { unfold P. replace s with (1 + (s - 1)) at 2 by lia. rewrite Z.pow_add_r by lia. reflexivity. }
    set (h := 2 ^ (s - 1)) in *.
    assert (HP : 0 < P) by (apply Z.pow_pos_nonneg; lia).
    assert (HC : 0 < C) by (apply Z.pow_pos_nonneg; lia).
    assert (HP52 : P <= 2 ^ 52) by (apply Z.pow_le_mono_r; lia).
    unfold int_ltb. cbn [mant expo].
    destruct (Z.leb_spec 0 (-55 + 0 + s)) as [Hbad|_]; [lia|].
    replace (- (-55 + 0 + s)) with (55 - s) by lia. fold C.
    assert (HaB : a * C * P = a * 36028797018963968) by (rewrite <- HPC; ring).
    set (A := a * C) in *.
    assert (HN : 10 * (M * t) = (36028797018963968 + 2) * t) by (unfold M; lia).
    destruct (Z.ltb_spec (10 * a) t) as [Hlt|Hge].
    + (* below a tenth: the product rounds to something above a *)
      assert (Hgap : A * P + M <= M * t) by (unfold M in *; lia).
      assert (HM : h < M) by (unfold M; lia).
      assert (Hq : A <= q) by nia.
      destruct (Z.eq_dec q A) as [->|Hneq].
      * assert (Hrh : h < r) by lia.
        destruct (Z.ltb_spec h r); [|lia]. simpl.
        destruct (Z.ltb_spec A (A + 1)); [reflexivity|lia].
      * destruct ((h <? r) || ((r =? h) && Z.odd q)).
        -- destruct (Z.ltb_spec A (q + 1)); [reflexivity|lia].
        -- destruct (Z.ltb_spec A q); [reflexivity|lia].
    + (* at least a tenth: the product rounds to at most a *)
      assert (Hup : M * t <= A * P + 2 * a) by (unfold M in *; lia).
      assert (Hq53 : q < 2 ^ 53) by nia.
      destruct (Z.lt_ge_cases (2 * a) h) as [Hsmall|Hbig].
      * assert (Hq : q <= A) by nia.
        destruct (Z.eq_dec q A) as [->|Hneq].
        -- assert (Hrh : r < h) by lia.
           destruct (Z.ltb_spec h r); [lia|].
           destruct (Z.eqb_spec r h); [lia|]. simpl.
           destruct (Z.ltb_spec A A); [lia|reflexivity].
        -- destruct ((h <? r) || ((r =? h) && Z.odd q)).
           ++ destruct (Z.ltb_spec A (q + 1)); [lia|reflexivity].
           ++ destruct (Z.ltb_spec A q); [lia|reflexivity].
      * assert (HA : 2 ^ 53 <= A) by nia.
        destruct ((h <? r) || ((r =? h) && Z.odd q)).
        -- destruct (Z.ltb_spec A (q + 1)); [lia|reflexivity].
        -- destruct (Z.ltb_spec A q); [lia|reflexivity].
Qed.

End FloatFacts.

(** The float test of [check_memory_limit] is the exact comparison with a
    tenth of the total, for every amount of memory below 2^53 bytes. *)
Lemma memory_is_low_iff mem :
  (total mem < 2 ^ 53)%N ->
  memory_is_low mem = true <-> (10 * available mem < total mem)%N.
Proof.
  intros Ht. unfold memory_is_low.
  rewrite tenth_mul_lt by lia.
  rewrite Z.ltb_lt. lia.
Qed.

(** [PyFloat] computes what the machine computes: the literal 0.1, and the
    products [0.1 * n] and [1.5 * n] for every trial integer. *)
Example tenth_is_the_binary64_literal :
  option_map (same_value PyFloat.tenth) (of_binary64 binary64_tenth) =
    Some true.
Proof. vm_compute. reflexivity. Qed.

Example mul_agrees_with_binary64 :
  forallb (mul_agrees binary64_tenth) trial_ints = true /\
  forallb (mul_agrees binary64_one_and_a_half) trial_ints = true.
Proof. vm_compute. split; reflexivity. Qed.

(** ** Arithmetic of the periodic check *)

Lemma div_succ_multiple c n :
  0 < c -> 0 <= n -> (n + 1) mod c = 0 -> (n + 1) / c = n / c + 1.
Proof.
  intros Hc Hn Hm.
  pose proof (Z.div_mod (n + 1) c ltac:(lia)) as Hd. rewrite Hm in Hd.
  assert (Hq : n / c = (n + 1) / c - 1); [|lia].
  symmetry. apply (Z.div_unique n c _ (c - 1)); lia.
Qed.

Lemma div_succ_other c n :
  0 < c -> 0 <= n -> (n + 1) mod c <> 0 -> (n + 1) / c = n / c.
Proof.
  intros Hc Hn Hm.
  pose proof (Z.div_mod (n + 1) c ltac:(lia)) as Hd.
  pose proof (Z.mod_pos_bound (n + 1) c Hc) as Hb.
  apply (Z.div_unique n c _ ((n + 1) mod c - 1)); lia.
Qed.


(** ** Stepping the primitives *)


Lemma cv2_resize_valid f size im w :
  valid_size size -> cv2_resize f size im w = (inr (Resized f size im), w).
Proof.
  intros [H1 H2]. unfold cv2_resize.
  destruct (Z.ltb_spec 0 size.1); [|lia].
  destruct (Z.ltb_spec 0 size.2); [|lia]. reflexivity.
Qed.

Lemma cv2_resize_raises f size im w e w' :
  cv2_resize f size im w = (inl e, w') ->
  w' = w /\ is_MemoryError e = false /\ is_Exception e = true.
Proof.
  unfold cv2_resize.
  destruct ((0 <? size.1) && (0 <? size.2)); unfold ret, raise;
    intros [= <- <-]; auto.
Qed.

(** The world after [writer_write]. *)
Lemma writer_write_returns vw f w : (writer_write vw f w).1 = inr tt.
Proof.
  unfold writer_write. destruct (vw_opened vw); [|reflexivity].
  destruct (w_files w !! vw_path vw) as [[v|]|]; reflexivity.
Qed.

Lemma py_mod_nonzero a b w : b <> 0 -> py_mod a b w = (inr (a mod b), w).
Proof.
  intros Hb. unfold py_mod. destruct (Z.eqb_spec b 0); [lia|reflexivity].
Qed.

Lemma check_memory_limit_eq w :
  check_memory_limit w =
    if memory_is_low (w_meminfo w (w_memreads w))
    then (inl (MemoryError "System is running out of memory. Aborting process."),
          set_log (w_log w ++ [(WARNING, LowMemoryDetected)])
            (set_memreads (S (w_memreads w)) w))
    else (inr tt, set_memreads (S (w_memreads w)) w).
Proof.
  unfold check_memory_limit, bind, psutil_virtual_memory.
  destruct (memory_is_low _); reflexivity.
Qed.

Lemma same_environment_refl w : same_environment w w.
Proof. repeat split. Qed.

Lemma same_environment_trans w1 w2 w3 :
  same_environment w1 w2 -> same_environment w2 w3 -> same_environment w1 w3.
Proof.
  unfold same_environment. intros (?&?&?&?&?&?) (?&?&?&?&?&?).
  repeat split; congruence.
Qed.

Lemma append_frames_nil v : append_frames v [] = v.
Proof.
  destruct v. unfold append_frames. simpl.
  rewrite Z.add_0_r, app_nil_r. reflexivity.
Qed.

Lemma append_frames_app v a b :
  append_frames (append_frames v a) b = append_frames v (a ++ b).
Proof.
  unfold append_frames. simpl. rewrite <- app_assoc, length_app.
  f_equal. lia.
Qed.

Lemma append_frames_cons v f fs :
  append_frames (append_frames v [f]) fs = append_frames v (f :: fs).
Proof.
  unfold append_frames. simpl. rewrite <- app_assoc. simpl.
  f_equal. lia.
Qed.

Section Loop.
Variables (vw : writer) (tr : Z * Z) (im c tf : Z).
Hypothesis c_pos : 0 < c.
Hypothesis tr_valid : valid_size tr.

Local Abbreviation loop fs n := (upscale_frames fs vw tr im c tf n).

(** The writer's file, when the writer is opened, holds [v]. *)
Local Abbreviation holds w v :=
  (vw_opened vw = true -> w_files w !! vw_path vw = Some (VideoFile v)).

Lemma writer_write_eq f w v0 :
  holds w v0 ->
  writer_write vw f w =
    (inr tt, set_files (write_frames vw v0 [f] (w_files w)) w).
Proof.
  intros Hp. unfold writer_write, write_frames.
  destruct (vw_opened vw).
  - rewrite Hp by reflexivity. reflexivity.
  - destruct w. reflexivity.
Qed.

Lemma write_frames_lookup v fs files :
  vw_opened vw = true ->
  write_frames vw v fs files !! vw_path vw =
    Some (VideoFile (append_frames v fs)).
Proof. intros Ho. unfold write_frames. rewrite Ho. apply lookup_insert_eq. Qed.

Lemma write_frames_nil v files :
  (vw_opened vw = true -> files !! vw_path vw = Some (VideoFile v)) ->
  write_frames vw v [] files = files.
Proof.
  intros Hp. unfold write_frames. destruct (vw_opened vw); [|reflexivity].
  rewrite append_frames_nil. apply insert_id. auto.
Qed.

Lemma write_frames_app v a b files :
  write_frames vw (append_frames v a) b (write_frames vw v a files) =
  write_frames vw v (a ++ b) files.
Proof.
  unfold write_frames. destruct (vw_opened vw); [|reflexivity].
  rewrite insert_insert_eq, append_frames_app. reflexivity.
Qed.

Lemma upscale_frames_completes fs : forall n w v0,
  0 <= n ->
  holds w v0 ->
  (forall j : nat,
      Z.of_nat j < (n + Z.of_nat (length fs)) / c - n / c ->
      memory_is_low (w_meminfo w (w_memreads w + j)%nat) = false) ->
  exists w',
    loop fs n w = (inr tt, w') /\
    w_files w' = write_frames vw v0 (resized tr im fs) (w_files w) /\
    same_environment w w' /\
    Z.of_nat (w_memreads w') =
      Z.of_nat (w_memreads w) + ((n + Z.of_nat (length fs)) / c - n / c).
Proof.
  induction fs as [|f fs IH]; intros n w v0 Hn Hp Hmem.
  - exists w. simpl. rewrite Z.add_0_r, write_frames_nil by assumption.
    repeat split; lia.
  - cbn [upscale_frames]. unfold bind at 1.
    rewrite cv2_resize_valid by assumption.
    unfold bind at 1. rewrite (writer_write_eq _ _ v0 Hp).
    set (v1 := append_frames v0 [Resized f tr im]).
    set (w1 := set_files _ w).
    unfold bind at 1. rewrite py_mod_nonzero by lia.
    assert (Hmono : (n + 1) / c <= (n + Z.of_nat (length (f :: fs))) / c).
    { apply Z.div_le_mono; [lia|]. simpl length. lia. }
    assert (Hlen : n + Z.of_nat (length (f :: fs)) = n + 1 + Z.of_nat (length fs))
      by (simpl length; lia).
    assert (Hp1 : forall w2, w_files w2 = w_files w1 -> holds w2 v1).
    { intros w2 -> Ho. unfold w1. simpl. apply write_frames_lookup, Ho. }
    assert (Hdone : forall files,
      write_frames vw v1 (resized tr im fs) (write_frames vw v0 [Resized f tr im] files) =
      write_frames vw v0 (resized tr im (f :: fs)) files).
    { intros files. unfold v1. rewrite write_frames_app. reflexivity. }
    destruct (Z.eqb_spec ((n + 1) mod c) 0) as [Hz|Hnz].
    + pose proof (div_succ_multiple c n c_pos Hn Hz) as Hd.
      unfold bind at 1. unfold bind at 1. unfold logging_info at 1, logging_log at 1.
      unfold bind at 1. rewrite check_memory_limit_eq.
      cbn [w_meminfo w_memreads set_log set_memreads set_files w1].
      rewrite <- (Nat.add_0_r (w_memreads w)), Hmem by lia.
      rewrite Nat.add_0_r. unfold gc_collect, ret.
      match goal with
      | |- context [upscale_frames fs _ _ _ _ _ (n + 1) ?x] => set (w3 := x)
      end.
      destruct (IH (n + 1) w3 v1) as (w' & Hrun & Hfiles & Henv & Hreads).
      * lia.
      * apply Hp1. reflexivity.
      * intros j Hj. unfold w3, w1. simpl.
        replace (S (w_memreads w + j))%nat with (w_memreads w + S j)%nat by lia.
        apply Hmem. rewrite Hlen. lia.
      * exists w'. split; [exact Hrun|]. split.
        { rewrite Hfiles. unfold w3, w1. simpl. apply Hdone. }
        split.
        { eapply same_environment_trans; [|exact Henv]. repeat split. }
        rewrite Hreads, Hlen. unfold w3, w1. simpl w_memreads. lia.
    + pose proof (div_succ_other c n c_pos Hn Hnz) as Hd.
      unfold bind at 1. unfold ret at 1.
      destruct (IH (n + 1) w1 v1) as (w' & Hrun & Hfiles & Henv & Hreads).
      * lia.
      * apply Hp1. reflexivity.
      * intros j Hj. unfold w1. simpl.
        apply Hmem. rewrite Hlen. lia.
      * exists w'. split; [exact Hrun|]. split.
        { rewrite Hfiles. unfold w1. simpl. apply Hdone. }
        split.
        { eapply same_environment_trans; [|exact Henv]. repeat split. }
        rewrite Hreads, Hlen. unfold w1. simpl w_memreads. lia.
Qed.
End Loop.

Lemma writer_write_spec vw f w :
  exists w1,
    writer_write vw f w = (inr tt, w1) /\ same_environment w w1 /\
    w_memreads w1 = w_memreads w /\
    (forall q, q <> vw_path vw -> w_files w1 !! q = w_files w !! q).
Proof.
  unfold writer_write. destruct (vw_opened vw).
  - destruct (w_files w !! vw_path vw) as [[v|]|] eqn:E.
    + eexists. split; [reflexivity|]. split; [repeat split|]. split; [reflexivity|].
      intros q Hq. simpl. apply lookup_insert_ne. congruence.
    + exists w. repeat split.
    + exists w. repeat split.
  - exists w. repeat split.
Qed.


(** What one periodic check can do to the world. *)
Lemma periodic_check_spec n tf w r w' :
  (logging_info (Processed n tf) ;; check_memory_limit ;; gc_collect) w =
    (r, w') ->
  same_environment w w' /\ w_files w' = w_files w /\
  w_memreads w' = S (w_memreads w) /\
  ((r = inr tt /\ memory_is_low (w_meminfo w (w_memreads w)) = false) \/
   (r = inl (MemoryError
               "System is running out of memory. Aborting process.") /\
    memory_is_low (w_meminfo w (w_memreads w)) = true)).
Proof.
  unfold bind, logging_info, logging_log. rewrite check_memory_limit_eq. simpl.
  destruct (memory_is_low (w_meminfo w (w_memreads w))); unfold gc_collect, ret;
    intros [= <- <-]; repeat split; auto.
Qed.

(** Whatever the arguments, the loop leaves the environment and every
    other file alone, never un-reads a memory report, and raises nothing
    but [Exception]s. *)
Lemma upscale_frames_frame vw tr im c tf fs : forall n w r w',
  upscale_frames fs vw tr im c tf n w = (r, w') ->
  same_environment w w' /\
  (forall q, q <> vw_path vw -> w_files w' !! q = w_files w !! q) /\
  (w_memreads w <= w_memreads w')%nat /\
  (forall e, r = inl e -> is_Exception e = true).
Proof.
  induction fs as [|f fs IH]; intros n w r w'.
  - simpl. unfold ret. intros [= <- <-]. repeat split; [lia|discriminate].
  - cbn [upscale_frames]. unfold bind at 1.
    destruct (cv2_resize f tr im w) as [[e|uf] w1] eqn:Hr.
    { apply cv2_resize_raises in Hr as (-> & _ & He). intros [= <- <-].
      repeat split; [lia|]. intros ? [= <-]. exact He. }
    assert (w1 = w) as ->.
    { unfold cv2_resize in Hr. destruct ((0 <? tr.1) && (0 <? tr.2)); unfold ret, raise in Hr; congruence. }
    unfold bind at 1.
    destruct (writer_write_spec vw uf w) as (w2 & -> & Henv2 & Hreads2 & Hfiles2).
    unfold bind at 1. unfold py_mod.
    destruct (Z.eqb_spec c 0) as [Hc|Hc].
    { unfold raise. intros [= <- <-]. repeat split; try apply Henv2; auto; [lia|].
      intros ? [= <-]. reflexivity. }
    unfold ret at 1. unfold bind at 1.
    destruct ((n + 1) mod c =? 0).
    + destruct ((logging_info (Processed (n + 1) tf) ;; check_memory_limit ;; gc_collect) w2)
        as [r3 w3] eqn:Hchk.
      apply periodic_check_spec in Hchk as (Henv3 & Hfiles3 & Hreads3 & [[-> _]|[-> _]]).
      * intros Hrun. apply IH in Hrun as (Henv & Hfiles & Hreads & Hexn).
        split; [eauto using same_environment_trans|]. split.
        { intros q Hq. rewrite Hfiles, Hfiles3 by assumption. auto. }
        split; [lia|assumption].
      * intros [= <- <-].
        split; [eauto using same_environment_trans|]. split.
        { intros q Hq. rewrite Hfiles3. auto. }
        split; [lia|]. intros ? [= <-]. reflexivity.
    + unfold ret at 1. intros Hrun. apply IH in Hrun as (Henv & Hfiles & Hreads & Hexn).
      split; [eauto using same_environment_trans|]. split.
      { intros q Hq. rewrite Hfiles by assumption. auto. }
      split; [lia|assumption].
Qed.

(** Fewer frames than a chunk: no report is read and no [MemoryError]
    can come out. *)
Lemma upscale_frames_short vw tr im c tf fs : forall n w r w',
  0 <= n -> n + Z.of_nat (length fs) < c ->
  upscale_frames fs vw tr im c tf n w = (r, w') ->
  w_memreads w' = w_memreads w /\
  (forall e, r = inl e -> is_MemoryError e = false).
Proof.
  induction fs as [|f fs IH]; intros n w r w' Hn Hlt.
  - simpl. unfold ret. intros [= <- <-]. split; [reflexivity|discriminate].
  - simpl length in Hlt. cbn [upscale_frames]. unfold bind at 1.
    destruct (cv2_resize f tr im w) as [[e|uf] w1] eqn:Hr.
    { apply cv2_resize_raises in Hr as (-> & He & _). intros [= <- <-].
      split; [reflexivity|]. intros ? [= <-]. exact He. }
    assert (w1 = w) as ->.
    { unfold cv2_resize in Hr. destruct ((0 <? tr.1) && (0 <? tr.2)); unfold ret, raise in Hr; congruence. }
    unfold bind at 1.
    destruct (writer_write_spec vw uf w) as (w2 & -> & _ & Hreads2 & _).
    unfold bind at 1. rewrite py_mod_nonzero by lia.
    rewrite Z.mod_small by lia.
    destruct (Z.eqb_spec (n + 1) 0); [lia|].
    unfold bind at 1. unfold ret at 1.
    intros Hrun. apply IH in Hrun as [Hreads Hexn]; [|lia|lia].
    split; [congruence|assumption].
Qed.

Lemma cv2_VideoCapture_video path w v :
  w_files w !! path = Some (VideoFile v) ->
  cv2_VideoCapture path w = (inr (Some v), w).
Proof. intros H. unfold cv2_VideoCapture. rewrite H. reflexivity. Qed.

Lemma cv2_VideoCapture_unopened path w :
  (forall v, w_files w !! path <> Some (VideoFile v)) ->
  cv2_VideoCapture path w = (inr None, w).
Proof.
  intros H. unfold cv2_VideoCapture.
  destruct (w_files w !! path) as [[v|]|]; try reflexivity.
  destruct (H v). reflexivity.
Qed.

Lemma cv2_VideoWriter_valid path fps size w :
  valid_size size ->
  cv2_VideoWriter path fps size w =
    (inr (created_writer w path),
     set_files (write_frames (created_writer w path) (empty_video size fps) []
                  (w_files w)) w).
Proof.
  intros [H1 H2]. unfold cv2_VideoWriter, created_writer, write_frames.
  destruct (Z.ltb_spec 0 size.1); [|lia].
  destruct (Z.ltb_spec 0 size.2); [|lia].
  destruct (w_unwritable w path); [destruct w|]; reflexivity.
Qed.

Lemma write_frames_twice vw v fs files :
  write_frames vw v fs (write_frames vw v [] files) =
  write_frames vw v fs files.
Proof.
  unfold write_frames. destruct (vw_opened vw); [|reflexivity].
  apply insert_insert_eq.
Qed.

(** What the intermediate path holds after [frames] were written. *)
Lemma written_file_lookup w path size fps im frames :
  write_frames (created_writer w path) (empty_video size fps)
    (resized size im frames) (w_files w) !! path =
    if w_unwritable w path then w_files w !! path
    else Some (VideoFile
                 (Video size.1 size.2 fps (Z.of_nat (length frames))
                    (resized size im frames) None)).
Proof.
  unfold write_frames, created_writer. simpl.
  destruct (w_unwritable w path); [reflexivity|]. simpl.
  rewrite lookup_insert_eq. unfold append_frames, empty_video, resized. simpl.
  rewrite length_map. reflexivity.
Qed.

Lemma cv2_VideoWriter_spec path fps size w :
  exists vw w1,
    cv2_VideoWriter path fps size w = (inr vw, w1) /\ vw_path vw = path /\
    same_environment w w1 /\ w_memreads w1 = w_memreads w /\
    (forall q, q <> path -> w_files w1 !! q = w_files w !! q).
Proof.
  unfold cv2_VideoWriter.
  destruct ((0 <? size.1) && (0 <? size.2) && negb (w_unwritable w path)).
  - eexists _, _. split; [reflexivity|]. split; [reflexivity|].
    split; [repeat split|]. split; [reflexivity|].
    intros q Hq. simpl. apply lookup_insert_ne. congruence.
  - eexists _, _. split; [reflexivity|]. repeat split.
Qed.

Section UpscaleVideo.
Variables (input_path temp_output_path : string).
Variables (target_resolution : Z * Z) (interpolation_method chunk_size : Z).
Variables (w : world) (v : video).
Hypothesis source : w_files w !! input_path = Some (VideoFile v).
Hypothesis size_ok : valid_size target_resolution.
Hypothesis chunk_pos : 0 < chunk_size.

Local Abbreviation run :=
  (upscale_video input_path temp_output_path target_resolution
     interpolation_method chunk_size w).
Local Abbreviation vw := (created_writer w temp_output_path).
Local Abbreviation v0 := (empty_video target_resolution (v_fps v)).
Local Abbreviation out frames :=
  (resized target_resolution interpolation_method frames).

(** The [try] block up to the loop: the capture opens, the writer is made,
    two records are logged. *)
Lemma upscale_video_try_prologue :
  exists w0,
    upscale_video_try input_path temp_output_path target_resolution
      interpolation_method chunk_size w =
      (upscale_frames (v_frames v) vw target_resolution interpolation_method
         chunk_size (PyFloat.to_int (PyFloat.of_int (v_frame_count v))) 0 ;;
       release ;; release ;; logging_info UpscalingCompleted) w0 /\
    w_files w0 = write_frames vw v0 [] (w_files w) /\
    w_meminfo w0 = w_meminfo w /\ w_memreads w0 = w_memreads w /\
    same_environment w w0.
Proof.
  unfold upscale_video_try.
  unfold bind at 1. rewrite (cv2_VideoCapture_video _ _ _ source).
  unfold bind at 1. cbn [isOpened negb]. unfold ret at 1.
  unfold bind at 1, logging_info at 1, logging_log at 1.
  unfold bind at 1. rewrite cv2_VideoWriter_valid by assumption.
  unfold bind at 1, logging_info at 1, logging_log at 1.
  cbn [cap_frames cap_get].
  eexists. split; [reflexivity|]. repeat split.
Qed.

Lemma upscale_video_completes :
  (forall j : nat,
      Z.of_nat j < Z.of_nat (length (v_frames v)) / chunk_size ->
      memory_is_low (w_meminfo w (w_memreads w + j)%nat) = false) ->
  exists w',
    run = (inr tt, w') /\
    w_files w' = write_frames vw v0 (out (v_frames v)) (w_files w) /\
    same_environment w w'.
Proof.
  intros Hmem.
  destruct upscale_video_try_prologue
    as (w0 & Htry & Hfiles0 & Hinfo0 & Hreads0 & Henv0).
  unfold upscale_video, try_except. rewrite Htry. unfold bind at 1.
  destruct (upscale_frames_completes vw target_resolution
              interpolation_method chunk_size
              (PyFloat.to_int (PyFloat.of_int (v_frame_count v)))
              chunk_pos size_ok (v_frames v) 0 w0 v0)
    as (w1 & Hrun & Hfiles & Henv & Hreads).
  - lia.
  - intros Ho. rewrite Hfiles0. apply (write_frames_lookup vw v0 [] _ Ho).
  - intros j Hj. rewrite Hinfo0, Hreads0. apply Hmem.
    rewrite Z.add_0_l in Hj. change (0 / chunk_size) with 0 in Hj. lia.
  - rewrite Hrun. unfold bind, release, ret, logging_info, logging_log.
    eexists. split; [reflexivity|]. split.
    + simpl. rewrite Hfiles, Hfiles0. apply write_frames_twice.
    + eapply same_environment_trans; [exact Henv0|].
      eapply same_environment_trans; [exact Henv|]. repeat split.
Qed.

End UpscaleVideo.

(** A handler that logs one record and re-raises. *)
Lemma log_and_reraise m e w :
  (logging_exception m ;; raise e) w =
    (inl e : exn + unit, set_log (w_log w ++ [(ERROR, m)]) w).
Proof. reflexivity. Qed.

Lemma upscale_video_unopened input_path temp_output_path tr im c w :
  (forall v, w_files w !! input_path <> Some (VideoFile v)) ->
  upscale_video input_path temp_output_path tr im c w =
    (inl (Exception ("Unable to open video file: " +:+ input_path)),
     set_log (w_log w ++
                [(ERROR, ErrorProcessingVideo
                           ("Unable to open video file: " +:+ input_path))]) w).
Proof.
  intros H. unfold upscale_video, try_except, upscale_video_try.
  unfold bind at 1. rewrite cv2_VideoCapture_unopened by assumption.
  reflexivity.
Qed.

(** The outcome of the [try] block of [upscale_video] on an opened
    source. *)
Lemma upscale_video_try_frame input_path temp_output_path tr im c w r w' :
  upscale_video_try input_path temp_output_path tr im c w = (r, w') ->
  same_environment w w' /\
  (forall q, q <> temp_output_path -> w_files w' !! q = w_files w !! q) /\
  (w_memreads w <= w_memreads w')%nat /\
  (forall e, r = inl e -> is_Exception e = true).
Proof.
  unfold upscale_video_try. unfold bind at 1. unfold cv2_VideoCapture.
  set (cap := match w_files w !! input_path with
              | Some (VideoFile v) => Some v
              | _ => None
              end).
  unfold bind at 1. destruct (isOpened cap) eqn:Hop; cbn [negb].
  2:{ unfold raise. intros [= <- <-]. repeat split; [lia|].
      intros ? [= <-]. reflexivity. }
  unfold ret at 1. unfold bind at 1, logging_info at 1, logging_log at 1.
  unfold bind at 1.
  match goal with
  | |- context [cv2_VideoWriter ?a ?b ?d ?x] =>
      destruct (cv2_VideoWriter_spec a b d x)
        as (vw & w1 & -> & Hpath & Henv1 & Hreads1 & Hfiles1)
  end.
  unfold bind at 1, logging_info at 1, logging_log at 1.
  unfold bind at 1.
  match goal with
  | |- context [upscale_frames ?fs ?a ?b ?d ?e ?f ?n ?x] =>
      destruct (upscale_frames fs a b d e f n x) as [r2 w2] eqn:Hloop
  end.
  apply upscale_frames_frame in Hloop as (Henv2 & Hfiles2 & Hreads2 & Hexn2).
  rewrite Hpath in Hfiles2. simpl in *.
  assert (Henv : same_environment w w2).
  { eapply same_environment_trans; [|exact Henv2].
    eapply same_environment_trans; [|eapply same_environment_trans; [exact Henv1|]];
      repeat split. }
  destruct r2 as [e|[]].
  - intros [= <- <-]. split; [exact Henv|]. split.
    { intros q Hq. rewrite Hfiles2, Hfiles1 by assumption. reflexivity. }
    split; [lia|]. intros ? [= <-]. auto.
  - unfold bind, release, ret, logging_info, logging_log. intros [= <- <-].
    split. { eapply same_environment_trans; [exact Henv|]. repeat split. }
    split.
    { intros q Hq. simpl. rewrite Hfiles2, Hfiles1 by assumption. reflexivity. }
    split; [simpl; lia|]. discriminate.
Qed.

Lemma upscale_video_frame input_path temp_output_path tr im c w r w' :
  upscale_video input_path temp_output_path tr im c w = (r, w') ->
  same_environment w w' /\
  (forall q, q <> temp_output_path -> w_files w' !! q = w_files w !! q) /\
  (w_memreads w <= w_memreads w')%nat /\
  (forall e, r = inl e -> is_Exception e = true).
Proof.
  unfold upscale_video, try_except.
  destruct (upscale_video_try input_path temp_output_path tr im c w)
    as [[e|[]] w1] eqn:Htry;
    apply upscale_video_try_frame in Htry as (Henv & Hfiles & Hreads & Hexn).
  - specialize (Hexn e eq_refl).
    destruct (is_MemoryError e); [|rewrite Hexn];
      rewrite log_and_reraise; intros [= <- <-];
      (split; [eapply same_environment_trans; [exact Henv|]; repeat split|]);
      (split; [exact Hfiles|]); (split; [exact Hreads|]);
      intros ? [= <-]; exact Hexn.
  - intros [= <- <-]. repeat split; try apply Henv; auto; discriminate.
Qed.

(** Fewer frames than a chunk: the run reads no memory report and cannot
    end in a [MemoryError]. *)
Lemma upscale_video_short input_path temp_output_path tr im c w v r w' :
  w_files w !! input_path = Some (VideoFile v) ->
  Z.of_nat (length (v_frames v)) < c ->
  upscale_video input_path temp_output_path tr im c w = (r, w') ->
  w_memreads w' = w_memreads w /\
  (forall e, r = inl e -> is_MemoryError e = false).
Proof.
  intros Hsrc Hlen. unfold upscale_video, try_except, upscale_video_try.
  unfold bind at 1. rewrite (cv2_VideoCapture_video _ _ _ Hsrc).
  unfold bind at 1. cbn [isOpened negb]. unfold ret at 1.
  unfold bind at 1, logging_info at 1, logging_log at 1.
  unfold bind at 1.
  match goal with
  | |- context [cv2_VideoWriter ?a ?b ?d ?x] =>
      destruct (cv2_VideoWriter_spec a b d x)
        as (vw & w1 & -> & Hpath & Henv1 & Hreads1 & Hfiles1)
  end.
  unfold bind at 1, logging_info at 1, logging_log at 1.
  unfold bind at 1. cbn [cap_frames].
  match goal with
  | |- context [upscale_frames ?fs ?a ?b ?d ?e ?f ?n ?x] =>
      destruct (upscale_frames fs a b d e f n x) as [r2 w2] eqn:Hloop
  end.
  pose proof (upscale_frames_frame _ _ _ _ _ _ _ _ _ _ Hloop) as (_ & _ & _ & Hexn).
  apply upscale_frames_short in Hloop as [Hreads Hmem]; [|lia|lia].
  simpl in Hreads, Hreads1.
  destruct r2 as [e|[]].
  - specialize (Hmem e eq_refl). specialize (Hexn e eq_refl).
    rewrite Hmem, Hexn, log_and_reraise. intros [= <- <-].
    split; [simpl; congruence|]. intros ? [= <-]. exact Hmem.
  - unfold bind, release, ret, logging_info, logging_log. intros [= <- <-].
    split; [simpl; congruence|]. discriminate.
Qed.

(** Closes the frame conditions the stage lemmas share. *)
Ltac finish :=
  repeat match goal with
         | |- _ /\ _ => split
         | |- same_environment _ _ =>
             solve [repeat split | eauto using same_environment_trans]
         | |- forall _, _ => intro
         | H : inl _ = inl _ |- _ => injection H as <-
         | H : inr _ = inl _ |- _ => discriminate H
         | |- _ = _ => reflexivity || assumption
         end; auto.

(** ** The audio stage *)

Lemma VideoFileClip_spec path w r w' :
  VideoFileClip path w = (r, w') ->
  w' = w /\ (forall e, r = inl e -> is_Exception e = true).
Proof.
  unfold VideoFileClip.
  destruct (w_files w !! path) as [[v|]|]; intros [= <- <-]; finish.
Qed.

Lemma write_videofile_spec clip path w r w' :
  write_videofile clip path w = (r, w') ->
  same_environment w w' /\ w_memreads w' = w_memreads w /\
  (forall q, q <> path -> w_files w' !! q = w_files w !! q) /\
  (forall e, r = inl e -> is_Exception e = true /\ w' = w).
Proof.
  unfold write_videofile. destruct (w_encode_fault w).
  { intros [= <- <-]. finish. }
  destruct (w_unwritable w path); intros [= <- <-]; [finish|].
  finish. simpl. apply lookup_insert_ne. congruence.
Qed.

Lemma extract_and_add_audio_frame input_path temp final w r w' :
  extract_and_add_audio input_path temp final w = (r, w') ->
  same_environment w w' /\ w_memreads w' = w_memreads w /\
  (forall q, q <> final -> w_files w' !! q = w_files w !! q) /\
  (forall e, r = inl e -> is_Exception e = true /\ w_files w' = w_files w).
Proof.
  unfold extract_and_add_audio, try_except.
  match goal with
  | |- context [match ?body w with _ => _ end] =>
      destruct (body w) as [rb wb] eqn:Hbody;
      assert (Hb : same_environment w wb /\ w_memreads wb = w_memreads w /\
                   (forall q, q <> final -> w_files wb !! q = w_files w !! q) /\
                   (forall e, rb = inl e -> is_Exception e = true /\ wb = w))
  end.
  { revert Hbody. unfold bind at 1.
    destruct (VideoFileClip input_path w) as [[e|clip1] w1] eqn:H1;
      apply VideoFileClip_spec in H1 as [-> Hx1].
    { intros [= <- <-]. finish. }
    unfold bind at 1.
    destruct (VideoFileClip temp w) as [[e|clip2] w2] eqn:H2;
      apply VideoFileClip_spec in H2 as [-> Hx2].
    { intros [= <- <-]. finish. }
    unfold bind at 1.
    destruct (write_videofile (set_audio clip2 (v_audio clip1)) final w)
      as [[e|[]] w3] eqn:H3;
      apply write_videofile_spec in H3 as (Henv & Hreads & Hfiles & Hx3).
    { intros [= <- <-]. destruct (Hx3 e eq_refl) as [He ->]. finish. }
    unfold logging_info, logging_log. intros [= <- <-].
    split. { eapply same_environment_trans; [exact Henv|]. repeat split. }
    finish. }
  destruct Hb as (Henv & Hreads & Hfiles & Hexn).
  destruct rb as [e|[]].
  - destruct (Hexn e eq_refl) as [He ->]. rewrite He, log_and_reraise.
    intros [= <- <-]. finish.
  - intros [= <- <-]. finish.
Qed.

(** ** Cleanup *)

(** The world [cleanup_temp_file] leaves, case by case. *)
Lemma cleanup_temp_file_eq path w :
  cleanup_temp_file path w =
    (inr tt,
     match w_files w !! path with
     | None => set_log (w_log w ++ [(WARNING, TempFileMissing path)]) w
     | Some _ =>
         match w_remove_fault w path with
         | Some m => set_log (w_log w ++ [(ERROR, ErrorDuringCleanup m)]) w
         | None =>
             set_log (w_log w ++ [(INFO, TempFileRemoved path)])
               (set_files (delete path (w_files w)) w)
         end
     end).
Proof.
  unfold cleanup_temp_file, try_except, bind, os_path_exists, os_remove.
  destruct (w_files w !! path) as [f|] eqn:E.
  - rewrite bool_decide_eq_true_2 by eauto. rewrite E.
    destruct (w_remove_fault w path); reflexivity.
  - rewrite bool_decide_eq_false_2; [reflexivity|].
    intros [? ?]. discriminate.
Qed.

(** ** The whole pipeline *)

Lemma load_config_spec path w r w' :
  load_config path w = (r, w') ->
  w' = w /\
  match r with
  | inr c => w_json w !! path = Some (Parsed c)
  | inl e => is_Exception e = true /\ is_MemoryError e = false
  end.
Proof.
  unfold load_config, open_json.
  destruct (w_json w !! path) as [[|c]|]; intros [= <- <-]; finish.
Qed.

Lemma configure_logging_spec dir w r w' :
  configure_logging dir w = (r, w') ->
  same_environment w w' /\ w_files w' = w_files w /\
  w_memreads w' = w_memreads w /\
  match r with
  | inr _ => w_logging_fault w = None /\
             w' = set_log (w_log w ++ [(INFO, LoggingInitialized)]) w
  | inl e => is_Exception e = true /\ is_MemoryError e = false
  end.
Proof.
  unfold configure_logging, bind, logging_basicConfig, logging_info, logging_log.
  destruct (w_logging_fault w); intros [= <- <-]; finish.
Qed.

Lemma get_interpolation_method_raises name e :
  get_interpolation_method name = inl e ->
  e = ValueError ("Invalid interpolation method: " +:+ name).
Proof.
  unfold get_interpolation_method.
  repeat match goal with |- context [if ?b then _ else _] => destruct b end;
    congruence.
Qed.

(** Nothing but [Exception]s leaves the [try] block of [main]. *)
Lemma main_try_raises w e w' :
  main_try w = (inl e, w') -> is_Exception e = true.
Proof.
  unfold main_try. unfold bind at 1.
  destruct (load_config "config.json" w) as [[e0|c] w0] eqn:H0;
    apply load_config_spec in H0 as [-> H0].
  { intros [= <- <-]. apply H0. }
  unfold bind at 1.
  destruct (configure_logging (log_dir c) w) as [[e1|[]] w1] eqn:H1;
    apply configure_logging_spec in H1 as (_ & _ & _ & H1).
  { intros [= <- <-]. apply H1. }
  unfold bind at 1, lift at 1.
  destruct (get_interpolation_method (interpolation_method c)) as [e2|im] eqn:H2.
  { intros [= <- <-]. apply get_interpolation_method_raises in H2 as ->. reflexivity. }
  unfold bind at 1.
  match goal with
  | |- context [upscale_video ?a ?b ?d ?g ?h w1] =>
      destruct (upscale_video a b d g h w1) as [[e3|[]] w3] eqn:H3;
      apply upscale_video_frame in H3 as (_ & _ & _ & H3)
  end.
  { intros [= <- <-]. auto. }
  unfold bind at 1.
  match goal with
  | |- context [extract_and_add_audio ?a ?b ?d w3] =>
      destruct (extract_and_add_audio a b d w3) as [[e4|[]] w4] eqn:H4;
      apply extract_and_add_audio_frame in H4 as (_ & _ & _ & H4)
  end.
  { intros [= <- <-]. apply H4. reflexivity. }
  rewrite cleanup_temp_file_eq. discriminate.
Qed.

(** What [main] makes of the outcome of its [try] block. *)
Lemma main_eq w :
  main w =
    match main_try w with
    | (inr tt, w') => (inr tt, w')
    | (inl e, w') =>
        (inl (SystemExit 1),
         set_log (w_log w' ++
                    [(ERROR, if is_MemoryError e then MainMemoryError (exn_str e)
                             else MainFailed (exn_str e))]) w')
    end.
Proof.
  unfold main, try_except.
  destruct (main_try w) as [[e|[]] w'] eqn:H; [|reflexivity].
  apply main_try_raises in H. destruct (is_MemoryError e); [reflexivity|].
  rewrite H. reflexivity.
Qed.

(** The [try] block of [main] once the configuration is loaded, logging is
    set up and the interpolation name is resolved. *)
Lemma main_try_stages w c im :
  w_json w !! "config.json" = Some (Parsed c) ->
  w_logging_fault w = None ->
  get_interpolation_method (interpolation_method c) = inr im ->
  main_try w =
    (upscale_video (input_video c)
       (os_path_join (output_folder c) "temp_upscaled_video.mp4")
       (target_resolution c) im 100 ;;
     extract_and_add_audio (input_video c)
       (os_path_join (output_folder c) "temp_upscaled_video.mp4")
       (output_video c) ;;
     cleanup_temp_file
       (os_path_join (output_folder c) "temp_upscaled_video.mp4"))
      (set_log (w_log w ++ [(INFO, LoggingInitialized)]) w).
Proof.
  intros Hc Hlog Him. unfold main_try. unfold bind at 1.
  unfold load_config, open_json. rewrite Hc.
  unfold bind at 1, configure_logging, logging_basicConfig.
  unfold bind at 1. rewrite Hlog. unfold logging_info at 1, logging_log at 1.
  unfold bind at 1, lift at 1. rewrite Him. reflexivity.
Qed.

(** The [try] block returns exactly when every stage does. *)
Lemma main_try_returns_iff w :
  (main_try w).1 = inr tt <-> stages_succeed w.
Proof.
  split.
  - unfold main_try. unfold bind at 1.
    destruct (load_config "config.json" w) as [[e0|c] w0] eqn:H0;
      apply load_config_spec in H0 as [-> H0]; [discriminate|].
    unfold bind at 1.
    destruct (configure_logging (log_dir c) w) as [[e1|[]] w1] eqn:H1;
      apply configure_logging_spec in H1 as (_ & _ & _ & H1); [discriminate|].
    destruct H1 as [Hlog ->].
    unfold bind at 1, lift at 1.
    destruct (get_interpolation_method (interpolation_method c)) as [e2|im] eqn:H2;
      [discriminate|].
    unfold bind at 1.
    match goal with
    | |- context [upscale_video ?a ?b ?d ?g ?h ?x] =>
        destruct (upscale_video a b d g h x) as [[e3|[]] w3] eqn:H3
    end; [discriminate|].
    unfold bind at 1.
    match goal with
    | |- context [extract_and_add_audio ?a ?b ?d w3] =>
        destruct (extract_and_add_audio a b d w3) as [[e4|[]] w4] eqn:H4
    end; [discriminate|].
    intros _. exists c, im. split; [exact H0|]. split; [exact Hlog|].
    split; [exact H2|]. cbv zeta. rewrite H3. simpl. rewrite H4.
    split; reflexivity.
  - intros (c & im & Hc & Hlog & Him & H). cbv zeta in H. destruct H as [H3 H4].
    rewrite (main_try_stages w c im Hc Hlog Him). unfold bind.
    match goal with
    | |- context [upscale_video ?a ?b ?d ?g ?h ?x] =>
        destruct (upscale_video a b d g h x) as [r3 w3]
    end.
    simpl in H3, H4. subst r3.
    match goal with
    | |- context [extract_and_add_audio ?a ?b ?d w3] =>
        destruct (extract_and_add_audio a b d w3) as [r4 w4]
    end.
    simpl in H4. subst r4. rewrite cleanup_temp_file_eq. reflexivity.
Qed.

(** ** main.py: the intermediate file *)

Lemma to_int_of_int n :
  0 <= n < 2 ^ 53 -> PyFloat.to_int (PyFloat.of_int n) = n.
Proof.
  intros Hn. rewrite (of_int_exact n Hn). unfold PyFloat.to_int. simpl. lia.
Qed.

Lemma upscale_frames_cubic_completes out size fs : forall w v0,
  valid_size size ->
  (vw_opened out = true -> w_files w !! vw_path out = Some (VideoFile v0)) ->
  upscale_frames_cubic fs out size w =
    (inr tt,
     set_files
       (write_frames out v0 (resized size cv2_INTER_CUBIC fs) (w_files w)) w).
Proof.
  induction fs as [|f fs IH]; intros w v0 Hsize Hp.
  - simpl. rewrite write_frames_nil by assumption. destruct w. reflexivity.
  - cbn [upscale_frames_cubic]. unfold bind at 1.
    rewrite cv2_resize_valid by assumption.
    unfold bind at 1. rewrite (writer_write_eq out _ _ v0 Hp).
    rewrite (IH _ (append_frames v0 [Resized f size cv2_INTER_CUBIC]) Hsize)
      by (intros Ho; apply write_frames_lookup, Ho).
    simpl. rewrite write_frames_app. reflexivity.
Qed.

(** With a source that opens and a target size OpenCV accepts, the
    scale-factor script leaves in [temp_video.mp4] every source frame
    resized to the target size with the cubic kernel, at the integer part
    of the source's frame rate. *)
Lemma upscale_video_with_audio_intermediate
    input_path output_path scale_factor w v :
  w_files w !! input_path = Some (VideoFile v) ->
  0 <= v_width v < 2 ^ 53 -> 0 <= v_height v < 2 ^ 53 ->
  valid_size (target_size (v_width v) (v_height v) scale_factor) ->
  w_unwritable w "temp_video.mp4" = false ->
  output_path <> "temp_video.mp4" ->
  w_files (upscale_video_with_audio input_path output_path scale_factor w).2
    !! "temp_video.mp4" =
    Some (VideoFile
            (Video (target_size (v_width v) (v_height v) scale_factor).1
               (target_size (v_width v) (v_height v) scale_factor).2
               (PyFloat.of_int (PyFloat.to_int (v_fps v)))
               (Z.of_nat (length (v_frames v)))
               (resized (target_size (v_width v) (v_height v) scale_factor)
                  cv2_INTER_CUBIC (v_frames v))
               None)).
Proof.
  intros Hsrc Hw Hh Hsize Hwr Hout.
  unfold upscale_video_with_audio.
  unfold bind at 1. rewrite (cv2_VideoCapture_video _ _ _ Hsrc).
  cbn [cap_get cap_frames]. rewrite !to_int_of_int by assumption.
  set (size := target_size (v_width v) (v_height v) scale_factor) in *.
  unfold bind at 1. rewrite cv2_VideoWriter_valid by assumption.
  set (vw := created_writer w "temp_video.mp4").
  set (v0 := empty_video size (PyFloat.of_int (PyFloat.to_int (v_fps v)))).
  unfold bind at 1.
  rewrite (upscale_frames_cubic_completes vw size (v_frames v) _ v0 Hsize)
    by (intros Ho; apply (write_frames_lookup vw v0 [] _ Ho)).
  cbn [w_files set_files]. rewrite write_frames_twice.
  set (w1 := set_files _ _).
  assert (Hw1 : w_files w1 !! "temp_video.mp4" =
                Some (VideoFile (Video size.1 size.2
                                   (PyFloat.of_int (PyFloat.to_int (v_fps v)))
                                   (Z.of_nat (length (v_frames v)))
                                   (resized size cv2_INTER_CUBIC (v_frames v))
                                   None))).
  { unfold w1. cbn [w_files set_files]. unfold vw, v0.
    rewrite written_file_lookup, Hwr. reflexivity. }
  unfold bind at 1, release at 1, ret at 1.
  unfold bind at 1, release at 1, ret at 1.
  unfold bind at 1.
  destruct (VideoFileClip input_path w1) as [[e|clip] w2] eqn:H2;
    apply VideoFileClip_spec in H2 as [-> _]; [exact Hw1|].
  unfold bind at 1.
  destruct (VideoFileClip "temp_video.mp4" w1) as [[e|up] w3] eqn:H3;
    apply VideoFileClip_spec in H3 as [-> _]; [exact Hw1|].
  unfold bind at 1.
  destruct (write_videofile (set_audio up (v_audio clip)) output_path w1)
    as [[e|[]] w4] eqn:H4;
    apply write_videofile_spec in H4 as (_ & _ & Hfiles & _).
  - simpl. rewrite Hfiles by congruence. exact Hw1.
  - unfold print. simpl. rewrite Hfiles by congruence. exact Hw1.
Qed.

(** main.py hands [int(fps)] to the writer: a 12.5 fps source gives a
    12 fps intermediate file. *)
Example main_py_truncates_frame_rate :
  v_fps (Sample.clip 3) = PyFloat.mk 25 (-1) /\
  w_files
    (upscale_video_with_audio "in.mp4" "final.mp4" (PyInt 2)
       (Sample.machine 3 0 Sample.unlocked)).2 !! "temp_video.mp4" =
    Some (VideoFile
            (Video 8 4 (PyFloat.mk 12 0) 3
               (resized (8, 4) cv2_INTER_CUBIC (v_frames (Sample.clip 3)))
               None)).
Proof. vm_compute. split; reflexivity. Qed.

(** ** C3: the interpolation names *)

(** C3.  [get_interpolation_method] returns a flag exactly for the four
    names of the table, namely the flag the table gives, and raises
    [ValueError] for every other string. *)
Theorem get_interpolation_method_spec (method_name : string) :
  (forall k, get_interpolation_method method_name = inr k <->
             (method_name, k) ∈ interpolation_table) /\
  ((forall k, (method_name, k) ∉ interpolation_table) <->
   get_interpolation_method method_name =
     inl (ValueError ("Invalid interpolation method: " +:+ method_name))).
Proof.
  unfold get_interpolation_method, interpolation_table.
  destruct (String.eqb_spec method_name "INTER_LINEAR") as [->|H1].
  { split; [intros k; split|split].
    - intros [= <-]. set_solver.
    - rewrite !elem_of_cons, elem_of_nil. intros [H|[H|[H|[H|[]]]]]; congruence.
    - intros H. destruct (H cv2_INTER_LINEAR). set_solver.
    - discriminate. }
  destruct (String.eqb_spec method_name "INTER_NEAREST") as [->|H2].
  { split; [intros k; split|split].
    - intros [= <-]. set_solver.
    - rewrite !elem_of_cons, elem_of_nil. intros [H|[H|[H|[H|[]]]]]; congruence.
    - intros H. destruct (H cv2_INTER_NEAREST). set_solver.
    - discriminate. }
  destruct (String.eqb_spec method_name "INTER_CUBIC") as [->|H3].
  { split; [intros k; split|split].
    - intros [= <-]. set_solver.
    - rewrite !elem_of_cons, elem_of_nil. intros [H|[H|[H|[H|[]]]]]; congruence.
    - intros H. destruct (H cv2_INTER_CUBIC). set_solver.
    - discriminate. }
  destruct (String.eqb_spec method_name "INTER_LANCZOS4") as [->|H4].
  { split; [intros k; split|split].
    - intros [= <-]. set_solver.
    - rewrite !elem_of_cons, elem_of_nil. intros [H|[H|[H|[H|[]]]]]; congruence.
    - intros H. destruct (H cv2_INTER_LANCZOS4). set_solver.
    - discriminate. }
  split; [intros k; split|split].
  - discriminate.
  - rewrite !elem_of_cons, elem_of_nil. intros [H|[H|[H|[H|[]]]]]; congruence.
  - reflexivity.
  - intros _ k. rewrite !elem_of_cons, elem_of_nil.
    intros [H|[H|[H|[H|[]]]]]; congruence.
Qed.

(** ** C10 and C7: cleanup *)

(** C10.  [cleanup_temp_file] returns normally on every path and in every
    world: a missing file costs a warning, a removal the system refuses is
    caught and logged as an error with the file left in place, and
    otherwise the file is removed. *)
Theorem cleanup_temp_file_never_raises (temp_file_path : string) (w : world) :
  exists w',
    cleanup_temp_file temp_file_path w = (inr tt, w') /\
    match w_files w !! temp_file_path, w_remove_fault w temp_file_path with
    | None, _ =>
        w_files w' = w_files w /\
        w_log w' = w_log w ++ [(WARNING, TempFileMissing temp_file_path)]
    | Some _, Some m =>
        w_files w' = w_files w /\
        w_log w' = w_log w ++ [(ERROR, ErrorDuringCleanup m)]
    | Some _, None =>
        w_files w' = delete temp_file_path (w_files w) /\
        w_log w' = w_log w ++ [(INFO, TempFileRemoved temp_file_path)]
    end.
Proof.
  rewrite cleanup_temp_file_eq. eexists. split; [reflexivity|].
  destruct (w_files w !! temp_file_path);
    [destruct (w_remove_fault w temp_file_path)|]; split; reflexivity.
Qed.

(** C7, as stated, fails: the intermediate file exists, the system refuses
    to remove it, and [cleanup_temp_file] returns with the file still
    there. *)
Lemma cleanup_keeps_locked_file :
  w_files (Sample.stale Sample.lock_temp) !! Sample.temp = Some OtherFile /\
  (cleanup_temp_file Sample.temp (Sample.stale Sample.lock_temp)).1 = inr tt /\
  w_files (cleanup_temp_file Sample.temp (Sample.stale Sample.lock_temp)).2
    !! Sample.temp = Some OtherFile.
Proof. repeat split. Qed.

(** C7, amended.  When the system does not refuse the removal, cleanup
    returns normally and leaves the file absent: it removes the file when
    there is one and only logs a warning when there is none.  A second
    call right after returns normally too, only logs the warning, and
    leaves the files as the first call left them. *)
Theorem cleanup_temp_file_idempotent (temp_file_path : string) (w : world) :
  w_remove_fault w temp_file_path = None ->
  let once := cleanup_temp_file temp_file_path w in
  let twice := cleanup_temp_file temp_file_path once.2 in
  once.1 = inr tt /\
  w_files once.2 = delete temp_file_path (w_files w) /\
  w_files once.2 !! temp_file_path = None /\
  w_log once.2 =
    w_log w ++ [if bool_decide (is_Some (w_files w !! temp_file_path))
                then (INFO, TempFileRemoved temp_file_path)
                else (WARNING, TempFileMissing temp_file_path)] /\
  twice.1 = inr tt /\
  w_files twice.2 = w_files once.2 /\
  w_log twice.2 = w_log once.2 ++ [(WARNING, TempFileMissing temp_file_path)].
Proof.
  intros Hfault once twice.
  assert (Honce : once.1 = inr tt /\
                  w_files once.2 = delete temp_file_path (w_files w) /\
                  w_log once.2 =
                    w_log w ++ [if bool_decide (is_Some (w_files w !! temp_file_path))
                                then (INFO, TempFileRemoved temp_file_path)
                                else (WARNING, TempFileMissing temp_file_path)]).
  { unfold once. rewrite cleanup_temp_file_eq, Hfault.
    destruct (w_files w !! temp_file_path) eqn:E.
    - rewrite bool_decide_eq_true_2 by eauto. repeat split.
    - rewrite bool_decide_eq_false_2 by (intros [? ?]; discriminate).
      simpl. rewrite delete_id by assumption. repeat split. }
  destruct Honce as (H1 & H2 & H3).
  assert (Habsent : w_files once.2 !! temp_file_path = None)
    by (rewrite H2; apply lookup_delete_eq).
  split; [exact H1|]. split; [exact H2|]. split; [exact Habsent|].
  split; [exact H3|].
  unfold twice. rewrite cleanup_temp_file_eq, Habsent. repeat split.
Qed.

Lemma cleanup_temp_file_idempotent_witness :
  w_remove_fault (Sample.stale Sample.unlocked) Sample.temp = None /\
  let once := cleanup_temp_file Sample.temp (Sample.stale Sample.unlocked) in
  let twice := cleanup_temp_file Sample.temp once.2 in
  once.1 = inr tt /\
  w_files once.2 =
    delete Sample.temp (w_files (Sample.stale Sample.unlocked)) /\
  w_files once.2 !! Sample.temp = None /\
  w_log once.2 =
    w_log (Sample.stale Sample.unlocked) ++
      [if bool_decide
            (is_Some (w_files (Sample.stale Sample.unlocked) !! Sample.temp))
       then (INFO, TempFileRemoved Sample.temp)
       else (WARNING, TempFileMissing Sample.temp)] /\
  twice.1 = inr tt /\
  w_files twice.2 = w_files once.2 /\
  w_log twice.2 = w_log once.2 ++ [(WARNING, TempFileMissing Sample.temp)].
Proof.
  split; [reflexivity|].
  apply (cleanup_temp_file_idempotent Sample.temp
           (Sample.stale Sample.unlocked)).
  reflexivity.
Defined.

(** ** C1, C2 and C9: the resample stage *)






(** C9.  On a source with fewer decodable frames than [chunk_size],
    [upscale_video] reads no memory report at all and cannot end in a
    [MemoryError], whatever the reports would have been. *)
Theorem short_video_never_checks_memory
    (input_path temp_output_path : string) (target_resolution : Z * Z)
    (interpolation_method chunk_size : Z) (w : world) (v : video) :
  w_files w !! input_path = Some (VideoFile v) ->
  Z.of_nat (length (v_frames v)) < chunk_size ->
  w_memreads
    (upscale_video input_path temp_output_path target_resolution
       interpolation_method chunk_size w).2 = w_memreads w /\
  forall msg,
    (upscale_video input_path temp_output_path target_resolution
       interpolation_method chunk_size w).1 <> inl (MemoryError msg).
Proof.
  intros Hsrc Hlen.
  destruct (upscale_video input_path temp_output_path target_resolution
              interpolation_method chunk_size w) as [r w'] eqn:Hrun.
  destruct (upscale_video_short _ _ _ _ _ _ _ _ _ Hsrc Hlen Hrun) as [Hreads Hexn].
  split; [exact Hreads|]. intros msg Hr. simpl in Hr.
  specialize (Hexn _ Hr). discriminate.
Qed.

Lemma short_video_never_checks_memory_witness :
  w_files Sample.short_run !! "in.mp4" = Some (VideoFile (Sample.clip 99)) /\
  Z.of_nat (length (v_frames (Sample.clip 99))) < 100 /\
  w_memreads
    (upscale_video "in.mp4" Sample.temp (8, 4) cv2_INTER_CUBIC 100
       Sample.short_run).2 =
    w_memreads Sample.short_run /\
  forall msg,
    (upscale_video "in.mp4" Sample.temp (8, 4) cv2_INTER_CUBIC 100
       Sample.short_run).1 <>
      inl (MemoryError msg).
Proof.
  split; [reflexivity|]. split; [reflexivity|].
  apply (short_video_never_checks_memory "in.mp4" Sample.temp (8, 4)
           cv2_INTER_CUBIC 100 Sample.short_run (Sample.clip 99)); reflexivity.
Defined.

(** ** C4: an input that cannot be opened *)

Lemma unopened_no_video path w :
  cv2_VideoCapture path w = (inr None, w) ->
  forall v, w_files w !! path <> Some (VideoFile v).
Proof.
  unfold cv2_VideoCapture. intros H v Hv. rewrite Hv in H. discriminate.
Qed.

(** [int(0 * scale_factor)] is 0. *)
Lemma target_size_zero scale_factor : target_size 0 0 scale_factor = (0, 0).
Proof.
  unfold target_size. destruct scale_factor as [n|x]; [reflexivity|].
  unfold py_int_mul, py_int, PyFloat.mul.
  change (PyFloat.of_int 0) with (PyFloat.mk 0 0). cbn [PyFloat.mant PyFloat.expo].
  rewrite Z.mul_0_l.
  change (PyFloat.round 0 (0 + PyFloat.expo x))
    with (PyFloat.mk 0 (0 + PyFloat.expo x)).
  unfold PyFloat.to_int. cbn [PyFloat.mant PyFloat.expo].
  rewrite Z.shiftr_0_l, Z.mul_0_l.
  destruct (0 <=? 0 + PyFloat.expo x); reflexivity.
Qed.

Lemma main_try_unopened w c :
  w_json w !! "config.json" = Some (Parsed c) ->
  cv2_VideoCapture (input_video c) w = (inr None, w) ->
  exists e w', main_try w = (inl e, w') /\ w_files w' = w_files w.
Proof.
  intros Hc Hcap. pose proof (unopened_no_video _ _ Hcap) as Hno.
  unfold main_try. unfold bind at 1. unfold load_config, open_json. rewrite Hc.
  unfold bind at 1.
  destruct (configure_logging (log_dir c) w) as [[e1|[]] w1] eqn:H1;
    apply configure_logging_spec in H1 as (_ & Hf1 & _ & H1).
  { eauto. }
  unfold bind at 1, lift at 1.
  destruct (get_interpolation_method (interpolation_method c)) as [e2|im].
  { eauto. }
  unfold bind at 1. rewrite upscale_video_unopened by (rewrite Hf1; exact Hno).
  eexists _, _. split; [reflexivity|]. exact Hf1.
Qed.

Lemma upscale_video_with_audio_unopened input_path output_path scale_factor w :
  cv2_VideoCapture input_path w = (inr None, w) ->
  exists e, upscale_video_with_audio input_path output_path scale_factor w =
              (inl e, w).
Proof.
  intros Hcap. pose proof (unopened_no_video _ _ Hcap) as Hno.
  unfold upscale_video_with_audio. unfold bind at 1. rewrite Hcap.
  cbn [cap_get cap_frames]. change (PyFloat.to_int PyFloat.zero) with 0.
  rewrite target_size_zero. unfold bind at 1. unfold cv2_VideoWriter at 1.
  cbn [fst snd Z.ltb Z.compare andb].
  unfold bind at 1. cbn [upscale_frames_cubic]. unfold ret at 1.
  unfold bind at 1, release at 1, ret at 1.
  unfold bind at 1, release at 1, ret at 1.
  unfold bind at 1. unfold VideoFileClip at 1.
  destruct (w_files w !! input_path) as [[v|]|] eqn:E; [|eauto..].
  destruct (Hno v). reflexivity.
Qed.

(** C4.  When the input named by the configuration cannot be opened as a
    video, the pipeline fails without creating or changing any file:
    [upscale_video] raises before it makes the writer, [main] ends in
    [sys.exit(1)], and the scale-factor script of main.py raises too. *)
Theorem unreadable_input_leaves_no_file (w : world) (c : config) :
  w_json w !! "config.json" = Some (Parsed c) ->
  cv2_VideoCapture (input_video c) w = (inr None, w) ->
  (exists w', main w = (inl (SystemExit 1), w') /\ w_files w' = w_files w) /\
  (forall temp_output_path target_resolution interpolation_method chunk_size,
      exists w',
        upscale_video (input_video c) temp_output_path target_resolution
          interpolation_method chunk_size w =
          (inl (Exception ("Unable to open video file: " +:+ input_video c)),
           w') /\
        w_files w' = w_files w) /\
  (forall output_path scale_factor,
      exists e w',
        upscale_video_with_audio (input_video c) output_path scale_factor w =
          (inl e, w') /\
        w_files w' = w_files w).
Proof.
  intros Hc Hcap. split; [|split].
  - destruct (main_try_unopened w c Hc Hcap) as (e & w1 & Htry & Hfiles).
    rewrite main_eq, Htry. eexists. split; [reflexivity|]. exact Hfiles.
  - intros. rewrite upscale_video_unopened by (apply unopened_no_video, Hcap).
    eexists. split; reflexivity.
  - intros. destruct (upscale_video_with_audio_unopened (input_video c)
                        output_path scale_factor w Hcap) as [e He].
    exists e, w. split; [exact He|reflexivity].
Qed.

Lemma unreadable_input_leaves_no_file_witness :
  w_json Sample.no_input !! "config.json" = Some (Parsed Sample.cfg) /\
  cv2_VideoCapture (input_video Sample.cfg) Sample.no_input =
    (inr None, Sample.no_input) /\
  (exists w', main Sample.no_input = (inl (SystemExit 1), w') /\
              w_files w' = w_files Sample.no_input) /\
  (forall temp_output_path target_resolution interpolation_method chunk_size,
      exists w',
        upscale_video (input_video Sample.cfg) temp_output_path
          target_resolution interpolation_method chunk_size Sample.no_input =
          (inl (Exception ("Unable to open video file: " +:+
                           input_video Sample.cfg)), w') /\
        w_files w' = w_files Sample.no_input) /\
  (forall output_path scale_factor,
      exists e w',
        upscale_video_with_audio (input_video Sample.cfg) output_path
          scale_factor Sample.no_input = (inl e, w') /\
        w_files w' = w_files Sample.no_input).
Proof.
  split; [reflexivity|]. split; [reflexivity|].
  apply (unreadable_input_leaves_no_file Sample.no_input Sample.cfg);
    reflexivity.
Defined.

(** ** C6: the exit status *)

(** C6.  The process exits with status 0 exactly when every stage of
    [main] returns normally, and with status 1 exactly when one of them
    raises: the configuration loader, the logging set-up, the
    interpolation lookup, the resample stage (a [MemoryError] included)
    or the audio stage. *)
Theorem exit_status_of_run (w : world) :
  ((run_script w).1 = 0 <-> stages_succeed w) /\
  ((run_script w).1 = 1 <-> ~ stages_succeed w).
Proof.
  rewrite <- main_try_returns_iff. unfold run_script. rewrite main_eq.
  destruct (main_try w) as [[e|[]] w']; simpl; split; split;
    try discriminate; try reflexivity; intros H; try (destruct H; reflexivity).
Qed.

Example exit_status_success : (run_script Sample.full_run).1 = 0.
Proof. vm_compute. reflexivity. Qed.

Example exit_status_memory_error :
  (main_try Sample.aborted_run).1 =
    inl (MemoryError "System is running out of memory. Aborting process.") /\
  (run_script Sample.aborted_run).1 = 1.
Proof. vm_compute. split; reflexivity. Qed.

Example exit_status_missing_config :
  (main_try (Sample.stale Sample.unlocked)).1 =
    inl (Exception "Configuration file config.json not found.") /\
  (run_script (Sample.stale Sample.unlocked)).1 = 1.
Proof. vm_compute. split; reflexivity. Qed.

(** ** C5: the life of the intermediate file *)





(** ** C8: the target size of main.py *)






(** * Further properties

    What the two scripts do beyond the statements above: how the
    configuration is loaded and rejected, where exactly the memory check
    trips, what the resample stage logs and how it fails, what the audio
    stage writes, what a whole run of either script leaves on disk. *)

(** ** Configuration and early exits *)






(** ** The memory check *)

(** X4.  For a total below 2^53 bytes, [check_memory_limit] raises
    [MemoryError] exactly when ten times the available memory is less
    than the total; available memory of exactly a tenth passes.  Either
    way it takes one memory report, and it logs its warning only when it
    raises. *)
Theorem check_memory_limit_threshold (w : world) :
  (total (w_meminfo w (w_memreads w)) < 2 ^ 53)%N ->
  check_memory_limit w =
    if (10 * available (w_meminfo w (w_memreads w)) <?
        total (w_meminfo w (w_memreads w)))%N
    then (inl (MemoryError
                 "System is running out of memory. Aborting process."),
          set_log (w_log w ++ [(WARNING, LowMemoryDetected)])
            (set_memreads (S (w_memreads w)) w))
    else (inr tt, set_memreads (S (w_memreads w)) w).
Proof.
  intros Ht. rewrite check_memory_limit_eq.
  pose proof (memory_is_low_iff _ Ht) as Hiff.
  destruct (N.ltb_spec (10 * available (w_meminfo w (w_memreads w)))
              (total (w_meminfo w (w_memreads w)))) as [Hlt|Hge].
  - apply Hiff in Hlt. rewrite Hlt. reflexivity.
  - destruct (memory_is_low (w_meminfo w (w_memreads w)));
      [|reflexivity].
    destruct Hiff as [Hiff _]. specialize (Hiff eq_refl). lia.
Qed.

Lemma check_memory_limit_threshold_witness :
  (total (w_meminfo Sample.on_the_brink (w_memreads Sample.on_the_brink)) <
   2 ^ 53)%N /\
  check_memory_limit Sample.on_the_brink =
    (inr tt, set_memreads 1 Sample.on_the_brink).
Proof.
  split; [reflexivity|].
  exact (check_memory_limit_threshold Sample.on_the_brink eq_refl).
Defined.

(** ** The resample stage *)

(** The [try] block of [upscale_video] on a source that opens, up to the
    making of the writer. *)
Lemma upscale_video_try_opened input_path temp_output_path tr im c w v :
  w_files w !! input_path = Some (VideoFile v) ->
  upscale_video_try input_path temp_output_path tr im c w =
    (video_writer <- cv2_VideoWriter temp_output_path (v_fps v) tr ;;
     logging_info (UpscalingTo tr) ;;
     upscale_frames (v_frames v) video_writer tr im c
       (PyFloat.to_int (PyFloat.of_int (v_frame_count v))) 0 ;;
     release ;; release ;; logging_info UpscalingCompleted)
      (set_log
         (w_log w ++
            [(INFO, OriginalVideo (PyFloat.to_int (PyFloat.of_int (v_width v)))
                      (PyFloat.to_int (PyFloat.of_int (v_height v)))
                      (v_fps v)
                      (PyFloat.to_int (PyFloat.of_int (v_frame_count v))))])
         w).
Proof.
  intros Hv. unfold upscale_video_try. unfold bind at 1.
  rewrite (cv2_VideoCapture_video _ _ _ Hv).
  cbn [isOpened negb]. unfold bind at 1, ret at 1.
  unfold bind at 1. unfold logging_info at 1, logging_log at 1.
  reflexivity.
Qed.

(** What the handlers of [upscale_video] make of the outcome of its [try]
    block. *)
Lemma upscale_video_eq input_path temp_output_path tr im c w :
  upscale_video input_path temp_output_path tr im c w =
    match upscale_video_try input_path temp_output_path tr im c w with
    | (inr tt, w') => (inr tt, w')
    | (inl e, w') =>
        (inl e,
         set_log (w_log w' ++
                    [(ERROR, if is_MemoryError e
                             then MemoryErrorEncountered (exn_str e)
                             else ErrorProcessingVideo (exn_str e))]) w')
    end.
Proof.
  unfold upscale_video, try_except.
  destruct (upscale_video_try input_path temp_output_path tr im c w)
    as [[e|[]] w'] eqn:E; [|reflexivity].
  apply upscale_video_try_frame in E as (_ & _ & _ & He).
  specialize (He e eq_refl).
  destruct (is_MemoryError e); [apply log_and_reraise|].
  rewrite He. apply log_and_reraise.
Qed.


Lemma invalid_size_test size :
  ~ valid_size size -> (0 <? size.1) && (0 <? size.2) = false.
Proof.
  unfold valid_size. intros H.
  destruct (Z.ltb_spec 0 size.1), (Z.ltb_spec 0 size.2); try reflexivity.
  destruct H. split; assumption.
Qed.

Lemma cv2_VideoWriter_invalid path fps size w :
  ~ valid_size size ->
  cv2_VideoWriter path fps size w = (inr (Writer path false), w).
Proof.
  intros H. unfold cv2_VideoWriter. rewrite (invalid_size_test _ H).
  reflexivity.
Qed.


Lemma writer_write_log vw f w : w_log (writer_write vw f w).2 = w_log w.
Proof.
  unfold writer_write. destruct (vw_opened vw); [|reflexivity].
  destruct (w_files w !! vw_path vw) as [[v|]|]; reflexivity.
Qed.

Lemma cv2_resize_world f size im w : (cv2_resize f size im w).2 = w.
Proof.
  unfold cv2_resize. destruct ((0 <? size.1) && (0 <? size.2)); reflexivity.
Qed.

Lemma writer_write_memreads vw f w :
  w_memreads (writer_write vw f w).2 = w_memreads w.
Proof.
  unfold writer_write. destruct (vw_opened vw); [|reflexivity].
  destruct (w_files w !! vw_path vw) as [[v|]|]; reflexivity.
Qed.

(** A loop that returns has logged one progress record, and taken one
    memory report, at each multiple of [c] the frame counter passed. *)
Lemma upscale_frames_returns vw tr im c tf fs : forall (n : nat) w w',
  upscale_frames fs vw tr im c tf (Z.of_nat n) w = (inr tt, w') ->
  w_log w' =
    w_log w ++
      map (fun m => (INFO, Processed m tf))
        (List.filter (fun m => m mod c =? 0)
           (map Z.of_nat (seq (S n) (length fs)))) /\
  w_memreads w' =
    (w_memreads w +
     length (List.filter (fun m => (m mod c =? 0)%Z)
               (map Z.of_nat (seq (S n) (length fs)))))%nat.
Proof.
  induction fs as [|f fs IH]; intros n w w' H.
  - injection H as <-. simpl. rewrite app_nil_r. split; [reflexivity|lia].
  - cbn [upscale_frames] in H. unfold bind at 1 in H.
    pose proof (cv2_resize_world f tr im w) as Hw1.
    destruct (cv2_resize f tr im w) as [[e|uf] w1]; [discriminate|].
    cbn [snd] in Hw1. subst w1.
    unfold bind at 1 in H.
    pose proof (writer_write_log vw uf w) as Hl2.
    pose proof (writer_write_memreads vw uf w) as Hm2.
    pose proof (writer_write_returns vw uf w) as Hr2.
    destruct (writer_write vw uf w) as [r2 w2]. cbn [fst snd] in Hl2, Hm2, Hr2.
    subst r2. unfold bind at 1 in H. unfold py_mod in H.
    replace (Z.of_nat n + 1) with (Z.of_nat (S n)) in H by lia.
    cbn [length seq map List.filter].
    destruct (c =? 0); [discriminate|]. unfold ret at 1 in H.
    unfold bind at 1 in H.
    destruct (Z.of_nat (S n) mod c =? 0) eqn:Em.
    + unfold bind at 1 in H.
      unfold logging_info at 1, logging_log at 1 in H.
      unfold bind at 1 in H. rewrite check_memory_limit_eq in H.
      cbn [w_meminfo w_memreads set_log] in H.
      destruct (memory_is_low (w_meminfo w2 (w_memreads w2)));
        [discriminate|].
      unfold gc_collect, ret at 1 in H.
      apply IH in H as [Hl Hm]. rewrite Hl, Hm.
      cbn [w_log w_memreads set_log set_memreads length].
      rewrite Hl2, Hm2, <- app_assoc. split; [reflexivity|lia].
    + unfold ret at 1 in H. apply IH in H as [Hl Hm].
      rewrite Hl, Hm, Hl2, Hm2. split; reflexivity.
Qed.

Lemma length_checkpoints c (n : nat) :
  0 < c -> Z.of_nat (length (checkpoints c n)) = Z.of_nat n / c.
Proof.
  intros Hc. unfold checkpoints. induction n as [|n IH].
  - simpl. rewrite Z.div_0_l by lia. reflexivity.
  - rewrite seq_S, map_app, List.filter_app, length_app, Nat2Z.inj_add, IH.
    cbn [map List.filter Nat.add].
    replace (Z.of_nat (S n)) with (Z.of_nat n + 1) by lia.
    destruct ((Z.of_nat n + 1) mod c =? 0) eqn:E.
    + apply Z.eqb_eq in E. rewrite div_succ_multiple by lia. reflexivity.
    + apply Z.eqb_neq in E. rewrite div_succ_other by lia. simpl. lia.
Qed.

(** A [try] block of [upscale_video] that returns has just logged its
    completion. *)
Lemma upscale_video_try_returns input_path temp_output_path tr im c w w' :
  upscale_video_try input_path temp_output_path tr im c w = (inr tt, w') ->
  last (w_log w') = Some (INFO, UpscalingCompleted).
Proof.
  unfold upscale_video_try. intros H.
  repeat (unfold bind at 1 in H;
          match type of H with
          | (let (_, _) := ?m in _) = _ =>
              destruct m as [[?e|?a] ?w]; [discriminate H|]
          end).
  unfold logging_info, logging_log in H. injection H as <-.
  apply last_snoc.
Qed.

(** X5.  A run of [upscale_video] that nothing stops appends to the log
    the source's properties, the target resolution, one progress record
    for each multiple of [chunk_size] among the frame counts 1 .. N, in
    increasing order, and the completion record; it takes one memory
    report per progress record, N / chunk_size in all. *)
Theorem upscale_video_reports_progress
    (input_path temp_output_path : string) (target_resolution : Z * Z)
    (interpolation_method chunk_size : Z) (w : world) (v : video) :
  w_files w !! input_path = Some (VideoFile v) ->
  0 <= v_width v < 2 ^ 53 -> 0 <= v_height v < 2 ^ 53 ->
  0 <= v_frame_count v < 2 ^ 53 ->
  valid_size target_resolution ->
  0 < chunk_size ->
  (forall j : nat,
      Z.of_nat j < Z.of_nat (length (v_frames v)) / chunk_size ->
      memory_is_low (w_meminfo w (w_memreads w + j)%nat) = false) ->
  exists w',
    upscale_video input_path temp_output_path target_resolution
      interpolation_method chunk_size w = (inr tt, w') /\
    w_log w' =
      w_log w ++
        [(INFO, OriginalVideo (v_width v) (v_height v) (v_fps v)
                  (v_frame_count v));
         (INFO, UpscalingTo target_resolution)] ++
        progress_records chunk_size (v_frame_count v)
          (length (v_frames v)) ++
        [(INFO, UpscalingCompleted)] /\
    w_memreads w' =
      (w_memreads w +
       length (checkpoints chunk_size (length (v_frames v))))%nat /\
    Z.of_nat (length (checkpoints chunk_size (length (v_frames v)))) =
      Z.of_nat (length (v_frames v)) / chunk_size.
Proof.
  intros Hv Hw Hh Hn Hsize Hc Hmem.
  destruct (upscale_video_completes input_path temp_output_path
              target_resolution interpolation_method chunk_size w v
              Hv Hsize Hc Hmem) as (w' & Hrun & _).
  exists w'. split; [exact Hrun|].
  rewrite upscale_video_eq, (upscale_video_try_opened _ _ _ _ _ _ _ Hv) in Hrun.
  rewrite !to_int_of_int in Hrun by assumption.
  unfold bind at 1 in Hrun. rewrite cv2_VideoWriter_valid in Hrun by assumption.
  unfold bind at 1 in Hrun. unfold logging_info at 1, logging_log at 1 in Hrun.
  unfold bind at 1 in Hrun.
  match type of Hrun with
  | context [upscale_frames ?fs ?vw ?tr ?im ?c ?tf 0 ?w0] =>
      destruct (upscale_frames fs vw tr im c tf 0 w0) as [[e|[]] w3] eqn:E
  end; [discriminate|].
  change 0 with (Z.of_nat 0) in E.
  apply upscale_frames_returns in E as [Hl Hm].
  unfold bind at 1, release at 1, ret at 1 in Hrun.
  unfold bind at 1, release at 1, ret at 1 in Hrun.
  unfold logging_info, logging_log in Hrun. injection Hrun as <-.
  cbn [w_log w_memreads set_log set_files] in *.
  split; [|split].
  - rewrite Hl. unfold progress_records, checkpoints.
    rewrite <- !app_assoc. reflexivity.
  - rewrite Hm. reflexivity.
  - apply length_checkpoints, Hc.
Qed.

Lemma upscale_video_reports_progress_witness :
  w_files Sample.full_run !! "in.mp4" = Some (VideoFile (Sample.clip 250)) /\
  0 <= v_width (Sample.clip 250) < 2 ^ 53 /\
  0 <= v_height (Sample.clip 250) < 2 ^ 53 /\
  0 <= v_frame_count (Sample.clip 250) < 2 ^ 53 /\
  valid_size (8, 4) /\
  0 < 100 /\
  (forall j : nat,
      Z.of_nat j < Z.of_nat (length (v_frames (Sample.clip 250))) / 100 ->
      memory_is_low
        (w_meminfo Sample.full_run (w_memreads Sample.full_run + j)%nat) =
        false) /\
  exists w',
    upscale_video "in.mp4" Sample.temp (8, 4) cv2_INTER_CUBIC 100
      Sample.full_run = (inr tt, w') /\
    w_log w' =
      w_log Sample.full_run ++
        [(INFO, OriginalVideo (v_width (Sample.clip 250))
                  (v_height (Sample.clip 250)) (v_fps (Sample.clip 250))
                  (v_frame_count (Sample.clip 250)));
         (INFO, UpscalingTo (8, 4))] ++
        progress_records 100 (v_frame_count (Sample.clip 250))
          (length (v_frames (Sample.clip 250))) ++
        [(INFO, UpscalingCompleted)] /\
    w_memreads w' =
      (w_memreads Sample.full_run +
       length (checkpoints 100 (length (v_frames (Sample.clip 250)))))%nat /\
    Z.of_nat (length (checkpoints 100 (length (v_frames (Sample.clip 250)))))
      = Z.of_nat (length (v_frames (Sample.clip 250))) / 100.
Proof.
  assert (Hmem : forall j : nat,
    Z.of_nat j < Z.of_nat (length (v_frames (Sample.clip 250))) / 100 ->
    memory_is_low
      (w_meminfo Sample.full_run
         (w_memreads Sample.full_run + j)%nat) = false).
  { intros j Hj.
    change (Z.of_nat (length (v_frames (Sample.clip 250))) / 100) with 2 in Hj.
    destruct j as [|[|j]]; [reflexivity|reflexivity|lia]. }
  split; [reflexivity|]. split; [vm_compute; intuition discriminate|].
  split; [vm_compute; intuition discriminate|].
  split; [vm_compute; intuition discriminate|].
  split; [split; reflexivity|]. split; [reflexivity|]. split; [exact Hmem|].
  apply (upscale_video_reports_progress "in.mp4" Sample.temp (8, 4)
           cv2_INTER_CUBIC 100 Sample.full_run (Sample.clip 250));
    [reflexivity|vm_compute; intuition discriminate
    |vm_compute; intuition discriminate|vm_compute; intuition discriminate
    |split; reflexivity|reflexivity|exact Hmem].
Defined.

(** X6.  The last log record [upscale_video] leaves tells how it ended:
    the completion record when it returns, and otherwise one error record
    carrying the message of the exception it re-raises, worded for a
    [MemoryError] or for any other exception. *)
Theorem upscale_video_last_record
    (input_path temp_output_path : string) (target_resolution : Z * Z)
    (interpolation_method chunk_size : Z) (w : world) :
  exists r w',
    upscale_video input_path temp_output_path target_resolution
      interpolation_method chunk_size w = (r, w') /\
    last (w_log w') =
      Some match r with
           | inr _ => (INFO, UpscalingCompleted)
           | inl e =>
               (ERROR, if is_MemoryError e
                       then MemoryErrorEncountered (exn_str e)
                       else ErrorProcessingVideo (exn_str e))
           end.
Proof.
  rewrite upscale_video_eq.
  destruct (upscale_video_try input_path temp_output_path target_resolution
              interpolation_method chunk_size w) as [[e|[]] w'] eqn:E.
  - eexists _, _. split; [reflexivity|]. apply last_snoc.
  - eexists _, _. split; [reflexivity|].
    apply (upscale_video_try_returns _ _ _ _ _ _ _ E).
Qed.



Lemma mod_opp_eqb n c : (n mod - c =? 0) = (n mod c =? 0).
Proof.
  destruct (Z.eq_dec c 0) as [->|Hc]; [reflexivity|].
  destruct (Z.eqb_spec (n mod c) 0) as [E|E].
  - apply Z.eqb_eq. apply Z.mod_opp_r_z; assumption.
  - apply Z.eqb_neq. intros E'. apply E.
    replace c with (- - c) by lia. apply Z.mod_opp_r_z; [lia|assumption].
Qed.

Lemma upscale_frames_opp vw tr im c tf fs : forall n w,
  upscale_frames fs vw tr im (- c) tf n w =
  upscale_frames fs vw tr im c tf n w.
Proof.
  induction fs as [|f fs IH]; intros n w; [reflexivity|].
  cbn [upscale_frames]. unfold bind at 1. symmetry. unfold bind at 1.
  destruct (cv2_resize f tr im w) as [[e|uf] w1]; [reflexivity|].
  unfold bind at 1. symmetry. unfold bind at 1.
  destruct (writer_write vw uf w1) as [[e|[]] w2]; [reflexivity|].
  unfold bind at 1. symmetry. unfold bind at 1. unfold py_mod.
  replace (- c =? 0) with (c =? 0)
    by (destruct (Z.eqb_spec c 0), (Z.eqb_spec (- c) 0); lia || reflexivity).
  destruct (c =? 0); [reflexivity|]. unfold ret at 1. symmetry.
  unfold ret at 1. unfold bind at 1. symmetry. unfold bind at 1.
  rewrite mod_opp_eqb.
  match goal with
  | |- context [(if ?b then ?x else ?y) w2] =>
      destruct ((if b then x else y) w2) as [[e|[]] w3]
  end; [reflexivity|].
  symmetry. apply IH.
Qed.

(** X8.  Only [frame_counter % chunk_size == 0] looks at [chunk_size], so
    its sign does not matter: a run with [- chunk_size] ends as the run
    with [chunk_size] does, in the same world. *)
Theorem negative_chunk_size_acts_as_positive
    (input_path temp_output_path : string) (target_resolution : Z * Z)
    (interpolation_method chunk_size : Z) (w : world) :
  upscale_video input_path temp_output_path target_resolution
    interpolation_method (- chunk_size) w =
  upscale_video input_path temp_output_path target_resolution
    interpolation_method chunk_size w.
Proof.
  unfold upscale_video, try_except.
  replace (upscale_video_try input_path temp_output_path target_resolution
             interpolation_method (- chunk_size) w)
    with (upscale_video_try input_path temp_output_path target_resolution
            interpolation_method chunk_size w); [reflexivity|].
  unfold upscale_video_try, bind, cv2_VideoCapture.
  destruct (w_files w !! input_path) as [[v|]|];
    cbn [isOpened negb]; unfold raise, ret; try reflexivity.
  unfold logging_info, logging_log, cv2_VideoWriter.
  destruct ((0 <? target_resolution.1) && (0 <? target_resolution.2) && _);
    rewrite upscale_frames_opp; reflexivity.
Qed.

(** X9.  A target resolution with a dimension that is not positive is not
    rejected up front either.  The writer stays closed, so no file is
    created or changed and no memory report is taken; the run completes
    on a source with no decodable frame, and otherwise the first
    [cv2.resize] raises, which is logged and re-raised. *)
Theorem upscale_video_invalid_resolution
    (input_path temp_output_path : string) (target_resolution : Z * Z)
    (interpolation_method chunk_size : Z) (w : world) (v : video) :
  w_files w !! input_path = Some (VideoFile v) ->
  ~ valid_size target_resolution ->
  exists r w',
    upscale_video input_path temp_output_path target_resolution
      interpolation_method chunk_size w = (r, w') /\
    match v_frames v with
    | [] => r = inr tt
    | _ :: _ =>
        exists msg,
          r = inl (cv2_error msg) /\
          last (w_log w') = Some (ERROR, ErrorProcessingVideo msg)
    end /\
    w_files w' = w_files w /\
    w_memreads w' = w_memreads w.
Proof.
  intros Hv Hsize.
  rewrite upscale_video_eq, (upscale_video_try_opened _ _ _ _ _ _ _ Hv).
  unfold bind at 1. rewrite cv2_VideoWriter_invalid by assumption.
  apply invalid_size_test in Hsize.
  unfold bind at 1. unfold logging_info at 1, logging_log at 1.
  unfold bind at 1.
  destruct (v_frames v) as [|f fs].
  - cbn [upscale_frames]. unfold ret at 1.
    unfold bind at 1, release at 1, ret at 1.
    unfold bind at 1, release at 1, ret at 1.
    unfold logging_info, logging_log.
    eexists _, _. split; [reflexivity|]. repeat split.
  - cbn [upscale_frames]. unfold bind at 1. unfold cv2_resize at 1.
    rewrite Hsize. unfold raise at 1. cbn [is_MemoryError exn_str].
    eexists _, _. split; [reflexivity|]. split; [|split; reflexivity].
    eexists. split; [reflexivity|]. apply last_snoc.
Qed.

Lemma upscale_video_invalid_resolution_witness :
  w_files Sample.full_run !! "in.mp4" = Some (VideoFile (Sample.clip 250)) /\
  ~ valid_size (0, 4) /\
  exists r w',
    upscale_video "in.mp4" Sample.temp (0, 4) cv2_INTER_CUBIC 100
      Sample.full_run = (r, w') /\
    match v_frames (Sample.clip 250) with
    | [] => r = inr tt
    | _ :: _ =>
        exists msg,
          r = inl (cv2_error msg) /\
          last (w_log w') = Some (ERROR, ErrorProcessingVideo msg)
    end /\
    w_files w' = w_files Sample.full_run /\
    w_memreads w' = w_memreads Sample.full_run.
Proof.
  assert (H : ~ valid_size (0, 4)) by (intros [H _]; discriminate H).
  split; [reflexivity|]. split; [exact H|].
  exact (upscale_video_invalid_resolution "in.mp4" Sample.temp (0, 4)
           cv2_INTER_CUBIC 100 Sample.full_run (Sample.clip 250) eq_refl H).
Defined.



(** ** The audio stage *)

(** The audio stage when nothing fails. *)
Lemma extract_and_add_audio_eq input_path temp final w v u :
  w_files w !! input_path = Some (VideoFile v) ->
  w_files w !! temp = Some (VideoFile u) ->
  w_encode_fault w = None ->
  w_unwritable w final = false ->
  extract_and_add_audio input_path temp final w =
    (inr tt,
     set_log (w_log w ++ [(INFO, AudioAdded)])
       (set_files
          (<[final := VideoFile (set_audio u (v_audio v))]> (w_files w)) w)).
Proof.
  intros Hv Hu He Hw. unfold extract_and_add_audio, try_except.
  unfold bind at 1. unfold VideoFileClip at 1. rewrite Hv.
  unfold bind at 1. unfold VideoFileClip at 1. rewrite Hu.
  unfold bind at 1. unfold write_videofile at 1. rewrite He, Hw.
  reflexivity.
Qed.

(** What the handler of [extract_and_add_audio] logs. *)
Lemma extract_and_add_audio_raises input_path temp final w e w' :
  extract_and_add_audio input_path temp final w = (inl e, w') ->
  w_log w' = w_log w ++ [(ERROR, ErrorAddingAudio (exn_str e))].
Proof.
  unfold extract_and_add_audio, try_except.
  unfold bind at 1. unfold VideoFileClip at 1.
  destruct (w_files w !! input_path) as [[v|]|];
    [|intros [= <- <-]; reflexivity..].
  unfold bind at 1. unfold VideoFileClip at 1.
  destruct (w_files w !! temp) as [[u|]|];
    [|intros [= <- <-]; reflexivity..].
  unfold bind at 1. unfold write_videofile at 1.
  destruct (w_encode_fault w) as [m|]; [intros [= <- <-]; reflexivity|].
  destruct (w_unwritable w final); [intros [= <- <-]; reflexivity|].
  discriminate.
Qed.

(** X11.  When the source and the intermediate file both decode and the
    output can be encoded and written, [extract_and_add_audio] returns
    normally and the output file holds the intermediate file's picture
    (its size, frame rate and frames) with the source's audio track, or
    no audio when the source has none.  No other file changes, and one
    record is logged. *)
Theorem extract_and_add_audio_result
    (input_path temp_upscaled_video final_output_video : string)
    (w : world) (v u : video) :
  w_files w !! input_path = Some (VideoFile v) ->
  w_files w !! temp_upscaled_video = Some (VideoFile u) ->
  w_encode_fault w = None ->
  w_unwritable w final_output_video = false ->
  exists w',
    extract_and_add_audio input_path temp_upscaled_video final_output_video w
      = (inr tt, w') /\
    w_files w' !! final_output_video =
      Some (VideoFile
              (Video (v_width u) (v_height u) (v_fps u) (v_frame_count u)
                 (v_frames u) (v_audio v))) /\
    (forall q, q <> final_output_video ->
               w_files w' !! q = w_files w !! q) /\
    w_log w' = w_log w ++ [(INFO, AudioAdded)].
Proof.
  intros Hv Hu He Hw.
  rewrite (extract_and_add_audio_eq _ _ _ _ _ _ Hv Hu He Hw).
  eexists. split; [reflexivity|]. cbn [w_files w_log set_log set_files].
  split; [apply lookup_insert_eq|]. split; [|reflexivity].
  intros q Hq. apply lookup_insert_ne. congruence.
Qed.

Lemma extract_and_add_audio_result_witness :
  w_files Sample.resampled !! "in.mp4" = Some (VideoFile (Sample.clip 3)) /\
  w_files Sample.resampled !! Sample.temp =
    Some (VideoFile
            (written_video (8, 4) (v_fps (Sample.clip 3)) cv2_INTER_CUBIC
               (v_frames (Sample.clip 3)))) /\
  w_encode_fault Sample.resampled = None /\
  w_unwritable Sample.resampled "final.mp4" = false /\
  exists w',
    extract_and_add_audio "in.mp4" Sample.temp "final.mp4" Sample.resampled =
      (inr tt, w') /\
    w_files w' !! "final.mp4" =
      Some (VideoFile
              (Video 8 4 (v_fps (Sample.clip 3)) 3
                 (resized (8, 4) cv2_INTER_CUBIC (v_frames (Sample.clip 3)))
                 (v_audio (Sample.clip 3)))) /\
    (forall q, q <> "final.mp4" ->
               w_files w' !! q = w_files Sample.resampled !! q) /\
    w_log w' = w_log Sample.resampled ++ [(INFO, AudioAdded)].
Proof.
  split; [vm_compute; reflexivity|]. split; [vm_compute; reflexivity|].
  split; [reflexivity|]. split; [reflexivity|].
  apply (extract_and_add_audio_result "in.mp4" Sample.temp "final.mp4"
           Sample.resampled (Sample.clip 3)
           (written_video (8, 4) (v_fps (Sample.clip 3)) cv2_INTER_CUBIC
              (v_frames (Sample.clip 3))));
    [vm_compute; reflexivity|vm_compute; reflexivity|reflexivity
    |reflexivity].
Defined.


(** ** The pipeline *)

(** X13.  A failure of the resample stage or of the audio stage is
    reported twice: the stage logs it and re-raises, and [main] logs it
    again (as a memory error or as a general failure) before it exits
    through [sys.exit(1)].  Both records carry the exception's
    message. *)
Theorem stage_failure_is_logged_twice (w : world) (c : config) (im : Z) :
  w_json w !! "config.json" = Some (Parsed c) ->
  w_logging_fault w = None ->
  get_interpolation_method (interpolation_method c) = inr im ->
  (forall e w1,
      upscale_video (input_video c)
        (os_path_join (output_folder c) "temp_upscaled_video.mp4")
        (target_resolution c) im 100
        (set_log (w_log w ++ [(INFO, LoggingInitialized)]) w) = (inl e, w1) ->
      exists l,
        w_log w1 =
          l ++ [(ERROR, if is_MemoryError e
                        then MemoryErrorEncountered (exn_str e)
                        else ErrorProcessingVideo (exn_str e))] /\
        main w =
          (inl (SystemExit 1),
           set_log (w_log w1 ++
                      [(ERROR, if is_MemoryError e
                               then MainMemoryError (exn_str e)
                               else MainFailed (exn_str e))]) w1)) /\
  (forall w1 e w2,
      upscale_video (input_video c)
        (os_path_join (output_folder c) "temp_upscaled_video.mp4")
        (target_resolution c) im 100
        (set_log (w_log w ++ [(INFO, LoggingInitialized)]) w) = (inr tt, w1) ->
      extract_and_add_audio (input_video c)
        (os_path_join (output_folder c) "temp_upscaled_video.mp4")
        (output_video c) w1 = (inl e, w2) ->
      w_log w2 = w_log w1 ++ [(ERROR, ErrorAddingAudio (exn_str e))] /\
      main w =
        (inl (SystemExit 1),
         set_log (w_log w2 ++
                    [(ERROR, if is_MemoryError e
                             then MainMemoryError (exn_str e)
                             else MainFailed (exn_str e))]) w2)).
Proof.
  intros Hc Hl Him. split.
  - intros e w1 Hrun.
    rewrite main_eq, (main_try_stages w c im Hc Hl Him).
    unfold bind at 1. rewrite Hrun.
    rewrite upscale_video_eq in Hrun.
    destruct (upscale_video_try _ _ _ _ _ _) as [[e0|[]] w0];
      [|discriminate].
    injection Hrun as <- <-. eexists. split; reflexivity.
  - intros w1 e w2 Hrun Haudio.
    rewrite main_eq, (main_try_stages w c im Hc Hl Him).
    unfold bind at 1. rewrite Hrun. unfold bind at 1. rewrite Haudio.
    split; [|reflexivity].
    apply extract_and_add_audio_raises in Haudio. exact Haudio.
Qed.

Lemma stage_failure_is_logged_twice_witness :
  w_json Sample.aborted_run !! "config.json" = Some (Parsed Sample.cfg) /\
  w_logging_fault Sample.aborted_run = None /\
  get_interpolation_method (interpolation_method Sample.cfg) =
    inr cv2_INTER_CUBIC /\
  (forall e w1,
      upscale_video (input_video Sample.cfg)
        (os_path_join (output_folder Sample.cfg) "temp_upscaled_video.mp4")
        (target_resolution Sample.cfg) cv2_INTER_CUBIC 100
        (set_log (w_log Sample.aborted_run ++ [(INFO, LoggingInitialized)])
           Sample.aborted_run) = (inl e, w1) ->
      exists l,
        w_log w1 =
          l ++ [(ERROR, if is_MemoryError e
                        then MemoryErrorEncountered (exn_str e)
                        else ErrorProcessingVideo (exn_str e))] /\
        main Sample.aborted_run =
          (inl (SystemExit 1),
           set_log (w_log w1 ++
                      [(ERROR, if is_MemoryError e
                               then MainMemoryError (exn_str e)
                               else MainFailed (exn_str e))]) w1)) /\
  (forall w1 e w2,
      upscale_video (input_video Sample.cfg)
        (os_path_join (output_folder Sample.cfg) "temp_upscaled_video.mp4")
        (target_resolution Sample.cfg) cv2_INTER_CUBIC 100
        (set_log (w_log Sample.aborted_run ++ [(INFO, LoggingInitialized)])
           Sample.aborted_run) = (inr tt, w1) ->
      extract_and_add_audio (input_video Sample.cfg)
        (os_path_join (output_folder Sample.cfg) "temp_upscaled_video.mp4")
        (output_video Sample.cfg) w1 = (inl e, w2) ->
      w_log w2 = w_log w1 ++ [(ERROR, ErrorAddingAudio (exn_str e))] /\
      main Sample.aborted_run =
        (inl (SystemExit 1),
         set_log (w_log w2 ++
                    [(ERROR, if is_MemoryError e
                             then MainMemoryError (exn_str e)
                             else MainFailed (exn_str e))]) w2)).
Proof.
  split; [reflexivity|]. split; [reflexivity|]. split; [reflexivity|].
  exact (stage_failure_is_logged_twice Sample.aborted_run Sample.cfg
           cv2_INTER_CUBIC eq_refl eq_refl eq_refl).
Defined.





(** ** main.py: the whole run *)







(** X18.  main.py does not check the size it computes.  When a target
    dimension comes out at 0 or below (a scale factor of 0, a negative
    one, or a fraction so small that [int] truncates the product to 0),
    the writer stays closed and the first [cv2.resize] raises; nothing
    catches it, so the exception leaves the function with no file
    created and nothing printed. *)
Theorem upscale_video_with_audio_invalid_size
    (input_path output_path : string) (scale_factor : pynum) (w : world)
    (v : video) :
  w_files w !! input_path = Some (VideoFile v) ->
  v_frames v <> [] ->
  0 <= v_width v < 2 ^ 53 -> 0 <= v_height v < 2 ^ 53 ->
  ~ valid_size (target_size (v_width v) (v_height v) scale_factor) ->
  exists msg,
    upscale_video_with_audio input_path output_path scale_factor w =
      (inl (cv2_error msg), w).
Proof.
  intros Hv Hfs Hw Hh Hsize. unfold upscale_video_with_audio.
  unfold bind at 1. rewrite (cv2_VideoCapture_video _ _ _ Hv).
  cbn [cap_get cap_frames]. rewrite !to_int_of_int by assumption.
  unfold bind at 1. rewrite cv2_VideoWriter_invalid by assumption.
  unfold bind at 1.
  destruct (v_frames v) as [|f fs]; [contradiction|].
  cbn [upscale_frames_cubic]. unfold bind at 1. unfold cv2_resize at 1.
  rewrite (invalid_size_test _ Hsize). unfold raise at 1.
  eexists. reflexivity.
Qed.

Lemma upscale_video_with_audio_invalid_size_witness :
  w_files (Sample.machine 3 0 Sample.unlocked) !! "in.mp4" =
    Some (VideoFile (Sample.clip 3)) /\
  v_frames (Sample.clip 3) <> [] /\
  0 <= v_width (Sample.clip 3) < 2 ^ 53 /\
  0 <= v_height (Sample.clip 3) < 2 ^ 53 /\
  ~ valid_size
      (target_size (v_width (Sample.clip 3)) (v_height (Sample.clip 3))
         (PyFloat PyFloat.tenth)) /\
  exists msg,
    upscale_video_with_audio "in.mp4" "final.mp4" (PyFloat PyFloat.tenth)
      (Sample.machine 3 0 Sample.unlocked) =
      (inl (cv2_error msg), Sample.machine 3 0 Sample.unlocked).
Proof.
  assert (Hdim : forall n : Z, n = 4 \/ n = 2 -> 0 <= n < 2 ^ 53)
    by (intros n [->| ->]; (split; [discriminate|reflexivity])).
  assert (Hfs : v_frames (Sample.clip 3) <> []) by discriminate.
  assert (Hsize : ~ valid_size
                      (target_size (v_width (Sample.clip 3))
                         (v_height (Sample.clip 3)) (PyFloat PyFloat.tenth)))
    by (intros [H _]; vm_compute in H; discriminate H).
  split; [reflexivity|]. split; [exact Hfs|].
  split; [apply Hdim; left; reflexivity|].
  split; [apply Hdim; right; reflexivity|]. split; [exact Hsize|].
  exact (upscale_video_with_audio_invalid_size "in.mp4" "final.mp4"
           (PyFloat PyFloat.tenth) (Sample.machine 3 0 Sample.unlocked)
           (Sample.clip 3) eq_refl Hfs (Hdim 4 (or_introl eq_refl))
           (Hdim 2 (or_intror eq_refl)) Hsize).
Defined.
